(** * PassportEye MRZ text parsing: a shallow embedding and its properties

    The development follows [passporteye/mrz/text.py] (classes [MRZ],
    [MRZOCRCleaner], [MRZCheckDigit]) and [passporteye/mrz/mrz_parsers.py]
    (classes [MRZBaseParser], [MRZParserEsp] and the [supported_parsers]
    registry).

    Modelling conventions.
    - Text is [string]: a [str] whose code points are all at most U+00FF,
      one 8-bit character for each.  [str.upper] can leave this text (the
      upper-case of U+00B5 is U+039C, that of U+00FF is U+0178): a [str]
      that may have left it is an [option string], [None] standing for a
      [str] with a code point above U+00FF.
    - Python integers are [Z]; lengths and positions are [nat].
    - Code that can raise is written in a small exception monad [result];
      [try: ... except: ...] is [try_except].
    - Python dictionaries whose order is observable, or which are only ever
      read key by key, are association lists. *)

From Stdlib Require Import ZArith List String Ascii Lia Bool Arith DecimalString.
Import ListNotations.
Open Scope string_scope.

(** ** Exceptions *)

Inductive exn : Type :=
  | TypeError | ValueError | IndexError | KeyError | AttributeError | UnboundLocalError.

Inductive result (A : Type) : Type :=
  | Ok (a : A)
  | Raise (e : exn).
Arguments Ok {A} a.
Arguments Raise {A} e.

Definition bind {A B : Type} (c : result A) (k : A -> result B) : result B :=
  match c with
  | Ok a => k a
  | Raise e => Raise e
  end.

Notation "x <- c ;; k" := (bind c (fun x => k))
  (at level 61, c at next level, right associativity).
Notation "' p <- c ;; k" := (bind c (fun x => let p := x in k))
  (at level 61, p pattern, c at next level, right associativity).

(** [try: body except: handler] (every exception of the model is an
    [Exception], so a bare [except] and [except Exception] agree). *)
Definition try_except {A : Type} (body handler : result A) : result A :=
  match body with
  | Ok a => Ok a
  | Raise _ => handler
  end.

(** ** Strings, as Python's [str] operations used by the source *)

Module Py.

(** [len(s)] is [String.length s]. *)

(** [s[i:j]] for constant bounds [0 <= i <= j]: clipped to the string,
    never raising. *)
Definition slice (i j : nat) (s : string) : string := substring i (j - i) s.

(** [s[i]] for a constant [0 <= i]: raises [IndexError] out of range. *)
Definition index (s : string) (i : nat) : result string :=
  match String.get i s with
  | Some c => Ok (String c "")
  | None => Raise IndexError
  end.

(** [c * n] for a one-character string [c]. *)
Fixpoint repeat (c : ascii) (n : nat) : string :=
  match n with
  | O => ""
  | S n' => String c (repeat c n')
  end.

(** A [str] that may hold code points above U+00FF, and [a + b] on
    two of them. *)
Definition wide : Type := option string.

Definition wide_append (a b : wide) : wide :=
  match a, b with
  | Some x, Some y => Some (x ++ y)
  | _, _ => None
  end.

(** [w == t] for a text [t]: a [str] with a code point above U+00FF is
    not equal to it. *)
Definition wide_eqb (w : wide) (t : string) : bool :=
  match w with
  | Some s => String.eqb s t
  | None => false
  end.

(** [c.upper()] on one character, by its code point: the letters a-z and
    U+00E0-U+00FE (U+00F7, the division sign, apart) move down by 32;
    U+00DF, the sharp s, becomes the two letters SS; U+00B5 and U+00FF have
    their upper-case above U+00FF; every other character is unchanged. *)
Definition upper_char (c : ascii) : wide :=
  let n := nat_of_ascii c in
  if ((97 <=? n)%nat && (n <=? 122)%nat)
     || ((224 <=? n)%nat && (n <=? 254)%nat && negb (n =? 247)%nat)
  then Some (String (ascii_of_nat (n - 32)) "")
  else if (n =? 223)%nat then Some "SS"
  else if (n =? 181)%nat || (n =? 255)%nat then None
  else Some (String c "").

Fixpoint upper (s : string) : wide :=
  match s with
  | "" => Some ""
  | String c r => wide_append (upper_char c) (upper r)
  end.

(** [s.replace(' ', '')]. *)
Fixpoint remove_spaces (s : string) : string :=
  match s with
  | "" => ""
  | String c r => if Ascii.eqb c " " then remove_spaces r else String c (remove_spaces r)
  end.

(** [s.replace('<', ' ')]. *)
Fixpoint fillers_to_spaces (s : string) : string :=
  match s with
  | "" => ""
  | String c r => String (if Ascii.eqb c "<" then " "%char else c) (fillers_to_spaces r)
  end.

(** Whitespace as [str.strip()] sees it: U+0009-U+000D, U+001C-U+0020,
    U+0085 and U+00A0. *)
Definition is_space (c : ascii) : bool :=
  let n := nat_of_ascii c in
  ((9 <=? n)%nat && (n <=? 13)%nat) || ((28 <=? n)%nat && (n <=? 32)%nat)
  || (n =? 133)%nat || (n =? 160)%nat.

Fixpoint lstrip (s : string) : string :=
  match s with
  | "" => ""
  | String c r => if is_space c then lstrip r else s
  end.

Fixpoint rstrip (s : string) : string :=
  match s with
  | "" => ""
  | String c r =>
      match rstrip r with
      | "" => if is_space c then "" else String c ""
      | r' => String c r'
      end
  end.

Definition strip (s : string) : string := rstrip (lstrip s).

(** [s.split('\n')]: never empty, one more piece than there are newlines. *)
Definition newline : ascii := ascii_of_nat 10.

Fixpoint split_lines (s : string) : list string :=
  match s with
  | "" => [""]
  | String c r =>
      if Ascii.eqb c newline then "" :: split_lines r
      else match split_lines r with
           | [] => [String c ""]
           | h :: t => String c h :: t
           end
  end.

(** ['\n'.join(lines)]. *)
Fixpoint join_lines (ls : list string) : string :=
  match ls with
  | [] => ""
  | [l] => l
  | l :: rest => l ++ String newline (join_lines rest)
  end.

(** [s.split('<<', 1)]: cut at the leftmost ["<<"], if there is one. *)
Fixpoint split_ll (s : string) : list string :=
  match s with
  | "" => [""]
  | String c r =>
      if Ascii.eqb c "<" && (match r with String "<" _ => true | _ => false end)
      then [""; match r with String _ r' => r' | "" => "" end]
      else match split_ll r with
           | h :: t => String c h :: t
           | [] => [String c ""]
           end
  end.

(** ['<<' in s]. *)
Fixpoint contains_ll (s : string) : bool :=
  match s with
  | "" => false
  | String c r =>
      (Ascii.eqb c "<" && (match r with String "<" _ => true | _ => false end))
      || contains_ll r
  end.

(** [str(n)] for an integer. *)
Definition str (n : Z) : string := NilEmpty.string_of_int (Z.to_int n).

(** [sum(bs)] for a list of booleans ([True] counts 1). *)
Fixpoint sum_bools (bs : list bool) : Z :=
  match bs with
  | [] => 0
  | b :: r => (if b then 1 else 0) + sum_bools r
  end.

End Py.

(** ** [MRZCheckDigit] *)

Module MRZCheckDigit.

(** [__init__]: the table is filled by three loops, digits, capitals,
    then the filler. *)
Definition CHECK_CODES : list (ascii * Z) :=
  map (fun i => (ascii_of_nat (48 + i), Z.of_nat i)) (seq 0 10)
  ++ map (fun i => (ascii_of_nat i, (Z.of_nat i - 55)%Z)) (seq 65 26)
  ++ [("<"%char, 0%Z)].

Definition CHECK_WEIGHTS : list Z := [7; 3; 1]%Z.

(** [CHECK_CODES.get(c, d)]. *)
Fixpoint get (tbl : list (ascii * Z)) (c : ascii) (d : Z) : Z :=
  match tbl with
  | [] => d
  | (k, v) :: r => if Ascii.eqb k c then v else get r c d
  end.

(** The comprehension
    [[CHECK_CODES.get(c, -1000) * CHECK_WEIGHTS[i % 3] for i, c in enumerate(txt)]],
    [enumerate] counting from [i]. *)
Fixpoint products (i : nat) (txt : string) : list Z :=
  match txt with
  | "" => []
  | String c r =>
      (get CHECK_CODES c (-1000) * nth (i mod 3) CHECK_WEIGHTS 0)%Z :: products (S i) r
  end.

Definition sum (l : list Z) : Z := fold_left Z.add l 0%Z.

Definition __call__ (txt : string) : string :=
  if String.eqb txt "" then ""
  else
    let res := sum (products 0 txt) in
    if (res <? 0)%Z then "" else Py.str (res mod 10).

(** [compute] forwards to the singleton instance. *)
Definition compute (txt : string) : string := __call__ txt.

End MRZCheckDigit.

(** ** What the parser is handed

    [MRZ(mrz_lines)] is documented for a list of strings, and its doctests
    also hand it numbers.  A line is text or a scalar without a length; the
    argument is a list of lines, a single string (then its characters are
    the elements), or a scalar. *)

Inductive line : Type :=
  | LStr (s : string)
  | LInt (n : Z)
  | LNone.

Inductive mrz_input : Type :=
  | InList (ls : list line)
  | InStr (s : string)
  | InInt (n : Z)
  | InNone.

(** The elements of the argument when it is iterated or indexed. *)
Definition elements (m : mrz_input) : result (list line) :=
  match m with
  | InList ls => Ok ls
  | InStr s => Ok (map (fun c => LStr (String c "")) (list_ascii_of_string s))
  | InInt _ | InNone => Raise TypeError
  end.

(** [len(mrz_lines)]. *)
Definition len (m : mrz_input) : result nat :=
  ls <- elements m;; Ok (List.length ls).

(** [mrz_lines[i]]. *)
Definition item (m : mrz_input) (i : nat) : result line :=
  ls <- elements m;;
  match nth_error ls i with
  | Some l => Ok l
  | None => Raise IndexError
  end.

(** A line used as text ([len(a)], slicing, indexing): a scalar raises. *)
Definition text (l : line) : result string :=
  match l with
  | LStr s => Ok s
  | LInt _ | LNone => Raise TypeError
  end.

(** [a, b = mrz_lines] and [a, b, c = mrz_lines]. *)
Definition unpack2 (m : mrz_input) : result (line * line) :=
  ls <- elements m;;
  match ls with
  | [a; b] => Ok (a, b)
  | _ => Raise ValueError
  end.

Definition unpack3 (m : mrz_input) : result (line * line * line) :=
  ls <- elements m;;
  match ls with
  | [a; b; c] => Ok (a, b, c)
  | _ => Raise ValueError
  end.

Inductive mrz_format : Type := TD1 | TD2 | TD3 | MRVA | MRVB.

(** Values held by attributes and dictionary entries. *)
#[warnings="-register-all"]
Inductive attr : Type :=
  | ANone
  | ABool (b : bool)
  | AInt (n : Z)
  | AStr (s : string)
  | ABools (bs : list bool)
  | AType (t : mrz_format)
  | ADict (d : list (string * attr)).

Definition dict : Type := list (string * attr).

(** [d[k]]. *)
Fixpoint lookup {V : Type} (d : list (string * V)) (k : string) : result V :=
  match d with
  | [] => Raise KeyError
  | (k', v) :: r => if String.eqb k' k then Ok v else lookup r k
  end.

(** [k in d]. *)
Definition has_key {V : Type} (d : list (string * V)) (k : string) : bool :=
  match lookup d k with Ok _ => true | Raise _ => false end.

(** [d[k] = v]: replaces in place, appends a new key. *)
Fixpoint store {V : Type} (d : list (string * V)) (k : string) (v : V) : list (string * V) :=
  match d with
  | [] => [(k, v)]
  | (k', v') :: r => if String.eqb k' k then (k, v) :: r else (k', v') :: store r k v
  end.

(** ** [MRZ._guess_type] *)

Module MRZ_guess.

Definition first_is_V (m : mrz_input) : result bool :=
  l0 <- item m 0;;
  s0 <- text l0;;
  c <- Py.index s0 0;;
  Ok (Py.wide_eqb (Py.upper c) "V").

(** The body of the [try]. *)
Definition body (mrz_lines : mrz_input) : result (option mrz_format) :=
  n <- len mrz_lines;;
  if (n =? 3)%nat then Ok (Some TD1)
  else
    short <- (if (n =? 2)%nat then
                l0 <- item mrz_lines 0;;
                s0 <- text l0;;
                if (String.length s0 <? 40)%nat then
                  l1 <- item mrz_lines 1;;
                  s1 <- text l1;;
                  Ok (String.length s1 <? 40)%nat
                else Ok false
              else Ok false);;
    if short then
      v <- first_is_V mrz_lines;;
      Ok (Some (if v then MRVB else TD2))
    else if (n =? 2)%nat then
      v <- first_is_V mrz_lines;;
      Ok (Some (if v then MRVA else TD3))
    else Ok None.

Definition _guess_type (mrz_lines : mrz_input) : result (option mrz_format) :=
  try_except (body mrz_lines) (Ok None).

End MRZ_guess.

(** ** [MRZBaseParser]

    A parser instance only holds [mrz_lines]; the attributes its methods
    assign on the way ([self.type], ...) are local names here, and the
    progress message [parse_td1] prints is left out. *)

(** [if len(a) < limit: a = a + '<' * (target - len(a))]. *)
Definition pad (limit target : nat) (a : string) : string :=
  if (String.length a <? limit)%nat
  then a ++ Py.repeat "<" (target - String.length a)
  else a.

(** [surname_names = s.split('<<', 1)], completed by [''] when there is no
    separator, then unpacked into [surname, names]. *)
Definition split_names (s : string) : result (string * string) :=
  let surname_names := Py.split_ll s in
  let surname_names :=
    if (List.length surname_names <? 2)%nat then (surname_names ++ [""])%list else surname_names in
  match surname_names with
  | [surname; names] => Ok (surname, names)
  | _ => Raise ValueError
  end.

(** [x.replace('<', ' ').strip()]. *)
Definition clean_name (x : string) : string := Py.strip (Py.fillers_to_spaces x).

(** [c in chars] for a one-character string [c] taken from a line. *)
Fixpoint char_in (c : ascii) (chars : string) : bool :=
  match chars with
  | "" => false
  | String k r => Ascii.eqb k c || char_in c r
  end.

(** [x in chars] for strings: substring test. *)
Fixpoint str_in (x chars : string) : bool :=
  String.prefix x chars
  || match chars with
     | "" => false
     | String _ r => str_in x r
     end.

(** The score of the three validity vectors against the format's total. *)
Definition score (valid_check_digits valid_line_lengths valid_misc : list bool) (total : Z) : Z :=
  let valid_score :=
    (10 * Py.sum_bools valid_check_digits + Py.sum_bools valid_line_lengths
     + Py.sum_bools valid_misc + 1)%Z in
  (100 * valid_score / total)%Z.

(** *** [datetime.strptime(ymd, '%y%m%d')]

    The standard library compiles the format to the regular expression
    [(\d\d)(1[0-2]|0[1-9]|[1-9])(3[0-1]|[1-2]\d|0[1-9]|[1-9]| [1-9])],
    takes the first match in the order of the alternatives, raises
    [ValueError] when there is none or when it stops before the end of the
    text, maps years 00-68 to 2000-2068 and 69-99 to 1969-1999, and raises
    [ValueError] for a day the month does not have. *)
Module Strptime.

Definition is_digit (c : ascii) : bool :=
  let n := nat_of_ascii c in (48 <=? n)%nat && (n <=? 57)%nat.

Definition digit (c : ascii) : Z := Z.of_nat (nat_of_ascii c - 48).

Definition in_range (lo hi : ascii) (c : ascii) : bool :=
  (nat_of_ascii lo <=? nat_of_ascii c)%nat && (nat_of_ascii c <=? nat_of_ascii hi)%nat.

(** One alternative of two characters, or of one: the value read and the
    text left over. *)
Definition two (p1 p2 : ascii -> bool) (v : ascii -> ascii -> Z) (s : string)
  : list (Z * string) :=
  match s with
  | String c1 (String c2 r) => if p1 c1 && p2 c2 then [(v c1 c2, r)] else []
  | _ => []
  end.

Definition one (p : ascii -> bool) (s : string) : list (Z * string) :=
  match s with
  | String c r => if p c then [(digit c, r)] else []
  | _ => []
  end.

Definition num (c1 c2 : ascii) : Z := (10 * digit c1 + digit c2)%Z.

(** [%y]: [\d\d]. *)
Definition match_y : string -> list (Z * string) := two is_digit is_digit num.

(** [%m]: [1[0-2]|0[1-9]|[1-9]]. *)
Definition match_m (s : string) : list (Z * string) :=
  two (Ascii.eqb "1") (in_range "0" "2") num s
  ++ two (Ascii.eqb "0") (in_range "1" "9") num s
  ++ one (in_range "1" "9") s.

(** [%d]: [3[0-1]|[1-2]\d|0[1-9]|[1-9]| [1-9]]. *)
Definition match_d (s : string) : list (Z * string) :=
  two (Ascii.eqb "3") (in_range "0" "1") num s
  ++ two (in_range "1" "2") is_digit num s
  ++ two (Ascii.eqb "0") (in_range "1" "9") num s
  ++ one (in_range "1" "9") s
  ++ two (Ascii.eqb " ") (in_range "1" "9") (fun _ c => digit c) s.

(** All the ways the month and day groups match a prefix, in the matcher's
    order: the alternatives of the month first, and for each of them those
    of the day. *)
Definition month_day (s : string) : list (Z * Z * string) :=
  flat_map (fun '(m, r2) => map (fun '(d, r3) => (m, d, r3)) (match_d r2)) (match_m s).

(** All the ways the whole expression matches a prefix. *)
Definition matches (s : string) : list (Z * Z * Z * string) :=
  flat_map (fun '(y, r1) => map (fun '(m, d, r3) => (y, m, d, r3)) (month_day r1))
           (match_y s).

Definition is_leap (year : Z) : bool :=
  ((year mod 4 =? 0) && (negb (year mod 100 =? 0) || (year mod 400 =? 0)))%Z.

Definition days_in_month (year month : Z) : Z :=
  (if month =? 2 then (if is_leap year then 29 else 28)
   else if (month =? 4) || (month =? 6) || (month =? 9) || (month =? 11) then 30
   else 31)%Z.

Definition strptime_ymd (ymd : string) : result (Z * Z * Z) :=
  match matches ymd with
  | [] => Raise ValueError
  | (y, m, d, rest) :: _ =>
      if String.eqb rest "" then
        let year := (if y <=? 68 then y + 2000 else y + 1900)%Z in
        if (d <=? days_in_month year m)%Z then Ok (year, m, d) else Raise ValueError
      else Raise ValueError
  end.

End Strptime.

Module MRZBaseParser.

Import MRZCheckDigit.

(** [_check_date]: [True] when [strptime] returns, [False] on [ValueError]. *)
Definition _check_date (ymd : string) : result bool :=
  match Strptime.strptime_ymd ymd with
  | Ok _ => Ok true
  | Raise ValueError => Ok false
  | Raise e => Raise e
  end.

(** [compute(field) == check and self._check_date(field)]: the date is
    only looked at when the digit agrees. *)
Definition date_ok (field check : string) : result bool :=
  if String.eqb (compute field) check then _check_date field else Ok false.

Definition parse_td1 (mrz_lines : mrz_input) : result (bool * dict) :=
  '(a, b, c) <- unpack3 mrz_lines;;
  a <- text a;; b <- text b;; c <- text c;;
  let len_a := String.length a in
  let len_b := String.length b in
  let len_c := String.length c in
  let a := pad 30 30 a in
  let b := pad 30 30 b in
  let c := pad 30 30 c in
  let type := Py.slice 0 2 a in
  let country := Py.slice 2 5 a in
  let number := Py.slice 5 14 a in
  check_number <- Py.index a 14;;
  let optional1 := Py.slice 15 30 a in
  let date_of_birth := Py.slice 0 6 b in
  check_date_of_birth <- Py.index b 6;;
  sex <- Py.index b 7;;
  let expiration_date := Py.slice 8 14 b in
  check_expiration_date <- Py.index b 14;;
  let nationality := Py.slice 15 18 b in
  let optional2 := Py.slice 18 29 b in
  check_composite <- Py.index b 29;;
  '(surname, names) <- split_names c;;
  let names := clean_name names in
  let surname := clean_name surname in
  let v_number := String.eqb (compute number) check_number in
  v_birth <- date_ok date_of_birth check_date_of_birth;;
  v_expiry <- date_ok expiration_date check_expiration_date;;
  let v_composite :=
    String.eqb (compute (Py.slice 5 30 a ++ Py.slice 0 7 b ++ Py.slice 8 15 b ++ Py.slice 18 29 b))
               check_composite in
  let valid_check_digits := [v_number; v_birth; v_expiry; v_composite] in
  let valid_line_lengths := [(len_a =? 30)%nat; (len_b =? 30)%nat; (len_c =? 30)%nat] in
  a0 <- Py.index a 0;;
  let valid_misc := [str_in a0 "IAC"] in
  let valid_score := score valid_check_digits valid_line_lengths valid_misc (40 + 3 + 1 + 1) in
  let data :=
    [ ("type", AStr type); ("country", AStr country); ("number", AStr number);
      ("check_number", AStr check_number); ("optional1", AStr optional1);
      ("date_of_birth", AStr date_of_birth);
      ("check_date_of_birth", AStr check_date_of_birth); ("sex", AStr sex);
      ("expiration_date", AStr expiration_date);
      ("check_expiration_date", AStr check_expiration_date);
      ("nationality", AStr nationality); ("optional2", AStr optional2);
      ("check_composite", AStr check_composite); ("surname", AStr surname);
      ("names", AStr names); ("valid_check_digits", ABools valid_check_digits);
      ("valid_line_lengths", ABools valid_line_lengths);
      ("valid_misc", ABools valid_misc); ("valid_score", AInt valid_score);
      ("valid_number", ABool v_number); ("valid_date_of_birth", ABool v_birth);
      ("valid_expiration_date", ABool v_expiry); ("valid_composite", ABool v_composite) ] in
  Ok ((valid_score =? 100)%Z, data).

Definition parse_td2 (mrz_lines : mrz_input) : result (bool * dict) :=
  '(a, b) <- unpack2 mrz_lines;;
  a <- text a;; b <- text b;;
  let len_a := String.length a in
  let len_b := String.length b in
  let a := pad 36 36 a in
  let b := pad 36 36 b in
  let type := Py.slice 0 2 a in
  let country := Py.slice 2 5 a in
  '(surname, names) <- split_names (Py.slice 5 36 a);;
  let names := clean_name names in
  let surname := clean_name surname in
  let number := Py.slice 0 9 b in
  check_number <- Py.index b 9;;
  let nationality := Py.slice 10 13 b in
  let date_of_birth := Py.slice 13 19 b in
  check_date_of_birth <- Py.index b 19;;
  sex <- Py.index b 20;;
  let expiration_date := Py.slice 21 27 b in
  check_expiration_date <- Py.index b 27;;
  let optional1 := Py.slice 28 35 b in
  check_composite <- Py.index b 35;;
  let v_number := String.eqb (compute number) check_number in
  v_birth <- date_ok date_of_birth check_date_of_birth;;
  v_expiry <- date_ok expiration_date check_expiration_date;;
  let v_composite :=
    String.eqb (compute (Py.slice 0 10 b ++ Py.slice 13 20 b ++ Py.slice 21 35 b))
               check_composite in
  let valid_check_digits := [v_number; v_birth; v_expiry; v_composite] in
  let valid_line_lengths := [(len_a =? 36)%nat; (len_b =? 36)%nat] in
  a0 <- Py.index a 0;;
  let valid_misc := [str_in a0 "ACI"] in
  let valid_score := score valid_check_digits valid_line_lengths valid_misc (40 + 2 + 1 + 1) in
  let data :=
    [ ("type", AStr type); ("country", AStr country); ("number", AStr number);
      ("check_number", AStr check_number); ("optional1", AStr optional1);
      ("date_of_birth", AStr date_of_birth);
      ("check_date_of_birth", AStr check_date_of_birth); ("sex", AStr sex);
      ("expiration_date", AStr expiration_date);
      ("check_expiration_date", AStr check_expiration_date);
      ("nationality", AStr nationality);
      ("check_composite", AStr check_composite); ("surname", AStr surname);
      ("names", AStr names); ("valid_check_digits", ABools valid_check_digits);
      ("valid_line_lengths", ABools valid_line_lengths);
      ("valid_misc", ABools valid_misc); ("valid_score", AInt valid_score);
      ("valid_number", ABool v_number); ("valid_date_of_birth", ABool v_birth);
      ("valid_expiration_date", ABool v_expiry); ("valid_composite", ABool v_composite) ] in
  Ok ((valid_score =? 100)%Z, data).

(** The personal number is optional: a blank field with check character
    [<] or [0] passes, and so does a matching digit. *)
Definition personal_ok (personal_number check_personal_number : string) : bool :=
  ((String.eqb check_personal_number "<" || String.eqb check_personal_number "0")
   && String.eqb personal_number "<<<<<<<<<<<<<<")
  || String.eqb (compute personal_number) check_personal_number.

Definition parse_td3 (mrz_lines : mrz_input) : result (bool * dict) :=
  '(a, b) <- unpack2 mrz_lines;;
  a <- text a;; b <- text b;;
  let len_a := String.length a in
  let len_b := String.length b in
  let a := pad 44 44 a in
  let b := pad 44 44 b in
  let type := Py.slice 0 2 a in
  let country := Py.slice 2 5 a in
  '(surname, names) <- split_names (Py.slice 5 44 a);;
  let names := clean_name names in
  let surname := clean_name surname in
  let number := Py.slice 0 9 b in
  check_number <- Py.index b 9;;
  let nationality := Py.slice 10 13 b in
  let date_of_birth := Py.slice 13 19 b in
  check_date_of_birth <- Py.index b 19;;
  sex <- Py.index b 20;;
  let expiration_date := Py.slice 21 27 b in
  check_expiration_date <- Py.index b 27;;
  let personal_number := Py.slice 28 42 b in
  check_personal_number <- Py.index b 42;;
  check_composite <- Py.index b 43;;
  let v0 := String.eqb (compute number) check_number in
  v1 <- date_ok date_of_birth check_date_of_birth;;
  v2 <- date_ok expiration_date check_expiration_date;;
  let v3 :=
    String.eqb (compute (Py.slice 0 10 b ++ Py.slice 13 20 b ++ Py.slice 21 43 b))
               check_composite in
  let v4 := personal_ok personal_number check_personal_number in
  let valid_check_digits := [v0; v1; v2; v3; v4] in
  let valid_line_lengths := [(len_a =? 44)%nat; (len_b =? 44)%nat] in
  a0 <- Py.index a 0;;
  let valid_misc := [str_in a0 "P"] in
  let valid_score := score valid_check_digits valid_line_lengths valid_misc (50 + 2 + 1 + 1) in
  (* valid_number, valid_date_of_birth, valid_expiration_date,
     valid_personal_number, valid_composite = valid_check_digits *)
  let '(valid_number, valid_date_of_birth, valid_expiration_date,
        valid_personal_number, valid_composite) := (v0, v1, v2, v3, v4) in
  let data :=
    [ ("type", AStr type); ("country", AStr country); ("names", AStr names);
      ("surname", AStr surname); ("number", AStr number);
      ("check_number", AStr check_number); ("nationality", AStr nationality);
      ("date_of_birth", AStr date_of_birth);
      ("check_date_of_birth", AStr check_date_of_birth); ("sex", AStr sex);
      ("expiration_date", AStr expiration_date);
      ("check_expiration_date", AStr check_expiration_date);
      ("personal_number", AStr personal_number);
      ("check_personal_number", AStr check_personal_number);
      ("check_composite", AStr check_composite);
      ("valid_check_digits", ABools valid_check_digits);
      ("valid_line_lengths", ABools valid_line_lengths);
      ("valid_misc", ABools valid_misc); ("valid_score", AInt valid_score);
      ("valid_number", ABool valid_number);
      ("valid_date_of_birth", ABool valid_date_of_birth);
      ("valid_expiration_date", ABool valid_expiration_date);
      ("valid_personal_number", ABool valid_personal_number);
      ("valid_composite", ABool valid_composite) ] in
  Ok ((valid_score =? 100)%Z, data).

Definition parse_mrv (mrz_lines : mrz_input) (length : nat) : result (bool * dict) :=
  '(a, b) <- unpack2 mrz_lines;;
  a <- text a;; b <- text b;;
  let len_a := String.length a in
  let len_b := String.length b in
  let a := pad length 44 a in
  let b := pad length 44 b in
  let type := Py.slice 0 2 a in
  let country := Py.slice 2 5 a in
  '(surname, names) <- split_names (Py.slice 5 length a);;
  let names := clean_name names in
  let surname := clean_name surname in
  let number := Py.slice 0 9 b in
  check_number <- Py.index b 9;;
  let nationality := Py.slice 10 13 b in
  let date_of_birth := Py.slice 13 19 b in
  check_date_of_birth <- Py.index b 19;;
  sex <- Py.index b 20;;
  let expiration_date := Py.slice 21 27 b in
  check_expiration_date <- Py.index b 27;;
  let optional1 := Py.slice 28 length b in
  let v_number := String.eqb (compute number) check_number in
  let v_birth := String.eqb (compute date_of_birth) check_date_of_birth in
  let v_expiry := String.eqb (compute expiration_date) check_expiration_date in
  let valid_check_digits := [v_number; v_birth; v_expiry] in
  let valid_line_lengths := [(len_a =? length)%nat; (len_b =? length)%nat] in
  a0 <- Py.index a 0;;
  let valid_misc := [String.eqb a0 "V"] in
  let valid_score := score valid_check_digits valid_line_lengths valid_misc (30 + 2 + 1 + 1) in
  let data :=
    [ ("type", AStr type); ("country", AStr country); ("names", AStr names);
      ("surname", AStr surname); ("number", AStr number);
      ("check_number", AStr check_number); ("nationality", AStr nationality);
      ("date_of_birth", AStr date_of_birth);
      ("check_date_of_birth", AStr check_date_of_birth); ("sex", AStr sex);
      ("expiration_date", AStr expiration_date);
      ("check_expiration_date", AStr check_expiration_date);
      ("optional1", AStr optional1);
      ("valid_check_digits", ABools valid_check_digits);
      ("valid_line_lengths", ABools valid_line_lengths);
      ("valid_misc", ABools valid_misc); ("valid_score", AInt valid_score);
      ("valid_number", ABool v_number); ("valid_date_of_birth", ABool v_birth);
      ("valid_expiration_date", ABool v_expiry) ] in
  Ok ((valid_score =? 100)%Z, data).

End MRZBaseParser.

(** ** [MRZParserEsp]: identity cards of Spain; only [parse_td1] is overridden. *)

Module MRZParserEsp.

Import MRZCheckDigit.

Definition parse_td1 (mrz_lines : mrz_input) : result (bool * dict) :=
  '(a, b, c) <- unpack3 mrz_lines;;
  a <- text a;; b <- text b;; c <- text c;;
  let len_a := String.length a in
  let len_b := String.length b in
  let len_c := String.length c in
  let a := pad 30 30 a in
  let b := pad 30 30 b in
  let c := pad 30 30 c in
  let type := Py.slice 0 2 a in
  let country := Py.slice 2 5 a in
  let number := Py.slice 15 24 a in
  check_number <- Py.index a 14;;
  let optional1 := Py.slice 15 30 a in
  let date_of_birth := Py.slice 0 6 b in
  check_date_of_birth <- Py.index b 6;;
  sex <- Py.index b 7;;
  let expiration_date := Py.slice 8 14 b in
  check_expiration_date <- Py.index b 14;;
  let nationality := Py.slice 15 18 b in
  let optional2 := Py.slice 18 29 b in
  check_composite <- Py.index b 29;;
  '(surname, names) <- split_names c;;
  let names := clean_name names in
  let surname := clean_name surname in
  let v_number := String.eqb (compute number) check_number in
  v_birth <- MRZBaseParser.date_ok date_of_birth check_date_of_birth;;
  v_expiry <- MRZBaseParser.date_ok expiration_date check_expiration_date;;
  let v_composite :=
    String.eqb (compute (Py.slice 5 30 a ++ Py.slice 0 7 b ++ Py.slice 8 15 b ++ Py.slice 18 29 b))
               check_composite in
  let valid_check_digits := [v_number; v_birth; v_expiry; v_composite] in
  let valid_line_lengths := [(len_a =? 30)%nat; (len_b =? 30)%nat; (len_c =? 30)%nat] in
  a0 <- Py.index a 0;;
  let valid_misc := [str_in a0 "IAC"] in
  let valid_score := score valid_check_digits valid_line_lengths valid_misc (40 + 3 + 1 + 1) in
  let data :=
    [ ("type", AStr type); ("country", AStr country); ("number", AStr number);
      ("check_number", AStr check_number); ("optional1", AStr optional1);
      ("date_of_birth", AStr date_of_birth);
      ("check_date_of_birth", AStr check_date_of_birth); ("sex", AStr sex);
      ("expiration_date", AStr expiration_date);
      ("check_expiration_date", AStr check_expiration_date);
      ("nationality", AStr nationality); ("optional2", AStr optional2);
      ("check_composite", AStr check_composite); ("surname", AStr surname);
      ("names", AStr names); ("valid_check_digits", ABools valid_check_digits);
      ("valid_line_lengths", ABools valid_line_lengths);
      ("valid_misc", ABools valid_misc); ("valid_score", AInt valid_score);
      ("valid_number", ABool v_number); ("valid_date_of_birth", ABool v_birth);
      ("valid_expiration_date", ABool v_expiry); ("valid_composite", ABool v_composite) ] in
  Ok ((valid_score =? 100)%Z, data).

End MRZParserEsp.

(** ** The registry of parser classes *)

Inductive parser_class : Type := BaseParser | EspParser.

Definition supported_parsers : list (string * parser_class) :=
  [ ("ESP", EspParser); ("default", BaseParser) ].

(** A parser instance: its class and the lines it was built with. *)
Definition parser : Type := (parser_class * mrz_input)%type.

(** Method lookup: [MRZParserEsp] inherits everything but [parse_td1]. *)
Definition parse_td1 (p : parser) : result (bool * dict) :=
  match fst p with
  | BaseParser => MRZBaseParser.parse_td1 (snd p)
  | EspParser => MRZParserEsp.parse_td1 (snd p)
  end.

Definition parse_td2 (p : parser) : result (bool * dict) := MRZBaseParser.parse_td2 (snd p).
Definition parse_td3 (p : parser) : result (bool * dict) := MRZBaseParser.parse_td3 (snd p).
Definition parse_mrv (p : parser) (length : nat) : result (bool * dict) :=
  MRZBaseParser.parse_mrv (snd p) length.

(** ** [MRZ]

    An instance is its attribute table.  Methods that assign attributes
    thread the instance, and an exception leaves the assignments made so
    far in place. *)

Module MRZ.

Definition obj : Type := dict.

Definition M (A : Type) : Type := obj -> obj * result A.

Definition ret {A : Type} (a : A) : M A := fun self => (self, Ok a).

Definition bindM {A B : Type} (c : M A) (k : A -> M B) : M B :=
  fun self =>
    match c self with
    | (self', Ok a) => k a self'
    | (self', Raise e) => (self', Raise e)
    end.

Definition lift {A : Type} (r : result A) : M A := fun self => (self, r).

(** [self.k = v]. *)
Definition setattr (k : string) (v : attr) : M unit :=
  fun self => (store self k v, Ok tt).

(** [self.k]. *)
Definition getattr (k : string) : M attr :=
  fun self =>
    match lookup self k with
    | Ok v => (self, Ok v)
    | Raise _ => (self, Raise AttributeError)
    end.

Definition try_exceptM {A : Type} (body handler : M A) : M A :=
  fun self =>
    match body self with
    | (self', Ok a) => (self', Ok a)
    | (self', Raise _) => handler self'
    end.

Notation "x <-- c ;; k" := (bindM c (fun x => k))
  (at level 61, c at next level, right associativity).
Notation "c ;;; k" := (bindM c (fun _ => k))
  (at level 61, right associativity).

Definition _guess_type := MRZ_guess._guess_type.

Definition attr_of_type (t : option mrz_format) : attr :=
  match t with
  | Some f => AType f
  | None => ANone
  end.

(** [for key in dictionary: setattr(self, key, dictionary[key])]. *)
Fixpoint set_all (dictionary : dict) : M unit :=
  match dictionary with
  | [] => ret tt
  | (key, v) :: r => setattr key v ;;; set_all r
  end.

(** [self.valid, dictionary = r]. *)
Definition take (r : result (bool * dict)) : M dict :=
  vd <-- lift r;;
  setattr "valid" (ABool (fst vd)) ;;;
  ret (snd vd).

(** The body of the first [try] of [_parse]: the class registered for the
    country code of the first line. *)
Definition registered (mrz_lines : mrz_input) : result parser :=
  l0 <- item mrz_lines 0;;
  s0 <- text l0;;
  let country := Py.slice 2 5 s0 in
  cls <- lookup supported_parsers country;;
  Ok (cls, mrz_lines).

(** The first [try] with its handler: the default class when anything
    went wrong. *)
Definition select_parser (mrz_lines : mrz_input) : result parser :=
  try_except
    (registered mrz_lines)
    (cls <- lookup supported_parsers "default";;
     Ok (cls, mrz_lines)).

(** The method called for each type in the [if]/[elif] chain. *)
Definition dispatch (t : mrz_format) (p : parser) : result (bool * dict) :=
  match t with
  | TD1 => parse_td1 p
  | TD2 => parse_td2 p
  | TD3 => parse_td3 p
  | MRVA => parse_mrv p 44
  | MRVB => parse_mrv p 36
  end.

(** The second [try] of [_parse].  In the [else] branch no [dictionary] is
    bound, so the loop after the branches raises. *)
Definition extract (p : parser) : M unit :=
  t <-- getattr "mrz_type";;
  dictionary <--
    match t with
    | AType f => take (dispatch f p)
    | _ =>
        setattr "valid" (ABool false) ;;;
        setattr "valid_score" (AInt 0) ;;;
        lift (Raise UnboundLocalError)
    end;;
  set_all dictionary.

Definition _parse (mrz_lines : mrz_input) : M unit :=
  t <-- lift (_guess_type mrz_lines);;
  setattr "mrz_type" (attr_of_type t) ;;;
  p <-- lift (select_parser mrz_lines);;
  try_exceptM
    (extract p)
    (setattr "mrz_type" ANone ;;;
     setattr "valid" (ABool false) ;;;
     setattr "valid_score" (AInt 0)).

Definition __init__ (mrz_lines : mrz_input) : M unit :=
  _parse mrz_lines ;;;
  setattr "aux" (ADict []).

(** [MRZ(mrz_lines)]: a fresh instance, initialised. *)
Definition new (mrz_lines : mrz_input) : result obj :=
  match __init__ mrz_lines [] with
  | (self, Ok _) => Ok self
  | (_, Raise e) => Raise e
  end.

End MRZ.

(** ** [MRZ.to_dict]: the ordered projection of an instance *)

Module MRZ_dict.

Import MRZ.

(** [result[k] = self.k]. *)
Definition put (k : string) (result : dict) : M dict :=
  v <-- getattr k;;
  ret (store result k v).

(** [result[k] = self.valid_check_digits[i]]. *)
Definition put_digit (k : string) (i : nat) (result : dict) : M dict :=
  v <-- getattr "valid_check_digits";;
  match v with
  | ABools bs =>
      match nth_error bs i with
      | Some b => ret (store result k (ABool b))
      | None => lift (Raise IndexError)
      end
  | _ => lift (Raise TypeError)
  end.

Definition is_type (t : attr) (f : mrz_format) : bool :=
  match t, f with
  | AType TD1, TD1 | AType TD2, TD2 | AType TD3, TD3
  | AType MRVA, MRVA | AType MRVB, MRVB => true
  | _, _ => false
  end.

Definition is_visa (t : attr) : bool := is_type t MRVA || is_type t MRVB.

Definition to_dict : M dict :=
  let result : dict := [] in
  result <-- put "mrz_type" result;;
  result <-- put "valid_score" result;;
  mrz_type <-- getattr "mrz_type";;
  match mrz_type with
  | ANone => ret result
  | _ =>
      result <-- put "type" result;;
      result <-- put "country" result;;
      result <-- put "number" result;;
      result <-- put "date_of_birth" result;;
      result <-- put "expiration_date" result;;
      result <-- put "nationality" result;;
      result <-- put "sex" result;;
      result <-- put "names" result;;
      result <-- put "surname" result;;
      result <--
        (if is_type mrz_type TD1 then
           result <-- put "optional1" result;;
           put "optional2" result
         else if is_type mrz_type TD2 || is_visa mrz_type then
           put "optional1" result
         else
           put "personal_number" result);;
      result <-- put "check_number" result;;
      result <-- put "check_date_of_birth" result;;
      result <-- put "check_expiration_date" result;;
      result <-- (if negb (is_visa mrz_type) then put "check_composite" result else ret result);;
      result <-- (if is_type mrz_type TD3 then put "check_personal_number" result else ret result);;
      result <-- put_digit "valid_number" 0 result;;
      result <-- put_digit "valid_date_of_birth" 1 result;;
      result <-- put_digit "valid_expiration_date" 2 result;;
      result <-- (if negb (is_visa mrz_type) then put_digit "valid_composite" 3 result else ret result);;
      result <-- (if is_type mrz_type TD3 then put_digit "valid_personal_number" 4 result else ret result);;
      aux <-- getattr "aux";;
      match aux with
      | ADict d =>
          if has_key d "method" then
            v <-- lift (lookup d "method");;
            ret (store result "method" v)
          else ret result
      | _ => lift (Raise TypeError)
      end
  end.

End MRZ_dict.

(** ** [MRZOCRCleaner] *)

Module MRZOCRCleaner.

(** Character classes per position: [a] letters, [A] letters and filler,
    [n] digits, [N] digits and filler, [*] anything. *)
Definition TD1_FORMAT : list string :=
  [ "a*" ++ Py.repeat "A" 3 ++ Py.repeat "*" 9 ++ "N" ++ Py.repeat "*" 15;
    Py.repeat "n" 7 ++ "A" ++ Py.repeat "n" 7 ++ Py.repeat "A" 3 ++ Py.repeat "*" 11 ++ "n";
    Py.repeat "A" 30 ].

Definition TD2_FORMAT : list string :=
  [ "a" ++ Py.repeat "A" 35;
    Py.repeat "*" 9 ++ "n" ++ Py.repeat "A" 3 ++ Py.repeat "n" 7 ++ "A" ++ Py.repeat "n" 7
      ++ Py.repeat "*" 7 ++ Py.repeat "n" 1 ].

Definition TD3_FORMAT : list string :=
  [ "a" ++ Py.repeat "A" 43;
    Py.repeat "*" 9 ++ "n" ++ Py.repeat "A" 3 ++ Py.repeat "n" 7 ++ "A" ++ Py.repeat "n" 7
      ++ Py.repeat "*" 14 ++ Py.repeat "n" 2 ].

Definition MRV_FORMAT : list string :=
  [ "a" ++ Py.repeat "A" 43;
    Py.repeat "*" 9 ++ "n" ++ Py.repeat "A" 3 ++ Py.repeat "n" 7 ++ "A" ++ Py.repeat "n" 7
      ++ Py.repeat "*" 16 ].

(** [self.FORMAT[type]]: every type has an entry. *)
Definition FORMAT (type : mrz_format) : list string :=
  match type with
  | TD1 => TD1_FORMAT
  | TD2 => TD2_FORMAT
  | TD3 => TD3_FORMAT
  | MRVA | MRVB => MRV_FORMAT
  end.

Definition fixer : Type := list (ascii * ascii).

Definition a_fixer : fixer :=
  [ ("0", "O"); ("1", "I"); ("2", "Z"); ("4", "A"); ("5", "S"); ("6", "G"); ("8", "B") ]%char.

Definition n_fixer : fixer :=
  [ ("B", "8"); ("C", "0"); ("D", "0"); ("G", "6"); ("I", "1"); ("O", "0"); ("Q", "0");
    ("S", "5"); ("Z", "2") ]%char.

Definition FIXERS : list (ascii * fixer) :=
  [ ("a", a_fixer); ("A", a_fixer); ("n", n_fixer); ("N", n_fixer); ("*", []) ]%char.

(** [fixer.get(char, char)]: the keys and the values of a table are
    strings of one character, [char] is any text. *)
Fixpoint get (f : fixer) (char default : string) : string :=
  match f with
  | [] => default
  | (k, v) :: r => if String.eqb (String k "") char then String v "" else get r char default
  end.

(** [self.FIXERS[cls]]. *)
Fixpoint fixer_of (tbl : list (ascii * fixer)) (cls : ascii) : result fixer :=
  match tbl with
  | [] => Raise KeyError
  | (k, f) :: r => if Ascii.eqb k cls then Ok f else fixer_of r cls
  end.

(** [ln for ln in s.replace(' ', '').split('\n') if len(ln) >= 20 or '<<' in ln]. *)
Definition keep (ln : string) : bool :=
  (20 <=? String.length ln)%nat || Py.contains_ll ln.

Definition _split_lines (mrz_ocr_string : string) : list string :=
  filter keep (Py.split_lines (Py.remove_spaces mrz_ocr_string)).

(** The character handed in is one character of the line; what is
    returned is a [str] of any length: [char.upper()] has two characters
    for the sharp s, and may lie above U+00FF. *)
Definition _fix_char (char : ascii) (type : mrz_format) (line_idx char_idx : nat)
  : result Py.wide :=
  match nth_error (FORMAT type) line_idx with
  | None => Raise IndexError
  | Some fmt =>
      if (String.length fmt <=? char_idx)%nat then Ok (Some (String char ""))
      else
        match String.get char_idx fmt with
        | None => Raise IndexError
        | Some cls =>
            fixer <- fixer_of FIXERS cls;;
            let char := Py.upper_char char in
            Ok (option_map (fun char => get fixer char char) char)
        end
  end.

(** The loop over [j] in [_fix_line], from position [j] of the given line
    on, and the [''.join] of what it stored. *)
Fixpoint fix_from (j : nat) (ln : string) (type : mrz_format) (line_idx : nat)
  : result Py.wide :=
  match ln with
  | "" => Ok (Some "")
  | String c r =>
      c' <- _fix_char c type line_idx j;;
      r' <- fix_from (S j) r type line_idx;;
      Ok (Py.wide_append c' r')
  end.

Definition _fix_line (line : string) (type : mrz_format) (line_idx : nat) : result Py.wide :=
  fix_from 0 line type line_idx.

(** A list of lines, [None] when one of them has a code point above
    U+00FF. *)
Definition wide_cons (l : Py.wide) (r : option (list string)) : option (list string) :=
  match l, r with
  | Some x, Some y => Some (x :: y)
  | _, _ => None
  end.

(** The loop over [i] in [__call__], from line [i] on. *)
Fixpoint fix_lines (i : nat) (lines : list string) (tp : mrz_format)
  : result (option (list string)) :=
  match lines with
  | [] => Ok (Some [])
  | l :: r =>
      l' <- _fix_line l tp i;;
      r' <- fix_lines (S i) r tp;;
      Ok (wide_cons l' r')
  end.

Definition __call__ (mrz_ocr_string : string) : result (option (list string)) :=
  let lines := _split_lines mrz_ocr_string in
  tp <- MRZ._guess_type (InList (map LStr lines));;
  match tp with
  | Some tp => fix_lines 0 lines tp
  | None => Ok (Some lines)
  end.

Definition apply (txt : string) : result (option (list string)) := __call__ txt.

End MRZOCRCleaner.

(** [MRZ.from_ocr]: the constructor on the cleaned lines.  The instance is
    not described ([None]) when a cleaned line has a code point above
    U+00FF. *)
Definition from_ocr (mrz_ocr_string : string) : option (result MRZ.obj) :=
  match MRZOCRCleaner.apply mrz_ocr_string with
  | Ok (Some lines) => Some (MRZ.new (InList (map LStr lines)))
  | Ok None => None
  | Raise e => Some (Raise e)
  end.

(** ** The specification's own notions, for comparison with the code *)

Module Spec.

Local Open Scope Z_scope.

Definition is_digit (c : ascii) : bool :=
  (48 <=? nat_of_ascii c)%nat && (nat_of_ascii c <=? 57)%nat.

Definition is_capital (c : ascii) : bool :=
  (65 <=? nat_of_ascii c)%nat && (nat_of_ascii c <=? 90)%nat.

(** The MRZ alphabet: digits, capital letters, the filler. *)
Definition in_alphabet (c : ascii) : bool :=
  is_digit c || is_capital c || Ascii.eqb c "<".

Fixpoint over_alphabet (txt : string) : bool :=
  match txt with
  | "" => true
  | String c r => in_alphabet c && over_alphabet r
  end.

(** Digits count 0-9, letters 10-35 from [A], the filler 0. *)
Definition value (c : ascii) : Z :=
  if is_digit c then Z.of_nat (nat_of_ascii c) - 48
  else if is_capital c then Z.of_nat (nat_of_ascii c) - 65 + 10
  else 0.

(** The weight cycle [7, 3, 1]. *)
Definition weight (i : nat) : Z :=
  match (i mod 3)%nat with
  | O => 7
  | S O => 3
  | _ => 1
  end.

(** The sum of value times weight over the positions from [i] on. *)
Fixpoint weighted_sum (i : nat) (txt : string) : Z :=
  match txt with
  | "" => 0
  | String c r => value c * weight i + weighted_sum (S i) r
  end.

(** The character of a decimal digit. *)
Definition digit_char (n : Z) : ascii := ascii_of_nat (48 + Z.to_nat n).

(** The number of true entries. *)
Definition count_true (bs : list bool) : Z := Z.of_nat (List.length (filter (fun b => b) bs)).

(** The normalisation constant of each format. *)
Definition D (t : mrz_format) : Z :=
  match t with
  | TD1 => 45
  | TD2 => 44
  | TD3 => 54
  | MRVA | MRVB => 34
  end.

(** The required line length of each format. *)
Definition required_length (t : mrz_format) : nat :=
  match t with
  | TD1 => 30
  | TD2 => 36
  | TD3 => 44
  | MRVA => 44
  | MRVB => 36
  end.

(** A calendar date written YYMMDD: six digits, a month from 01 to 12 and
    a day the month has, years 00-68 read in 2000-2068 and 69-99 in
    1969-1999. *)
Definition month_length (year month : Z) : Z :=
  match month with
  | 2 => if (year mod 4 =? 0) && (negb (year mod 100 =? 0) || (year mod 400 =? 0))
         then 29 else 28
  | 4 | 6 | 9 | 11 => 30
  | _ => 31
  end.

Definition two_digits (c1 c2 : ascii) : Z := 10 * value c1 + value c2.

Definition calendar_date (ymd : string) : bool :=
  match ymd with
  | String y1 (String y2 (String m1 (String m2 (String d1 (String d2 ""))))) =>
      is_digit y1 && is_digit y2 && is_digit m1 && is_digit m2 && is_digit d1 && is_digit d2
      && (let yy := two_digits y1 y2 in
          let year := if yy <=? 68 then 2000 + yy else 1900 + yy in
          let month := two_digits m1 m2 in
          let day := two_digits d1 d2 in
          (1 <=? month) && (month <=? 12) && (1 <=? day) && (day <=? month_length year month))
  | _ => false
  end.

(** Case-insensitive [V]. *)
Definition is_V (c : ascii) : bool := Ascii.eqb c "V" || Ascii.eqb c "v".

End Spec.

(** ** Auxiliary notions of the proofs *)

Module Aux.

Local Open Scope Z_scope.

(** Every character is in the alphabet with its value in the table, or
    absent from the table. *)
Definition code_check (c : ascii) : bool :=
  if Spec.in_alphabet c
  then (MRZCheckDigit.get MRZCheckDigit.CHECK_CODES c (-1000) =? Spec.value c)
       && (0 <=? Spec.value c) && (Spec.value c <=? 35)
  else MRZCheckDigit.get MRZCheckDigit.CHECK_CODES c (-1000) =? -1000.

(** The instance left by a failed classification or extraction. *)
Definition degraded : MRZ.obj :=
  [ ("mrz_type", ANone); ("valid", ABool false); ("valid_score", AInt 0); ("aux", ADict []) ].

(** The instance left by a parser that returned [(v, data)] for type [f]. *)
Definition parsed (f : mrz_format) (v : bool) (data : dict) : MRZ.obj :=
  store (fst (MRZ.set_all data [ ("mrz_type", AType f); ("valid", ABool v) ])) "aux" (ADict []).

(** The month and day of the first match, when it uses up the text. *)
Definition full_match (r : string) : option (Z * Z) :=
  match Strptime.month_day r with
  | (m, d, "") :: _ => Some (m, d)
  | _ => None
  end.

(** What four digits are expected to give. *)
Definition expected (m1 m2 d1 d2 : ascii) : option (Z * Z) :=
  let month := Spec.two_digits m1 m2 in
  let day := Spec.two_digits d1 d2 in
  if (1 <=? month) && (month <=? 12) && (1 <=? day) && (day <=? 31)
  then Some (month, day) else None.

Definition same (x y : option (Z * Z)) : bool :=
  match x, y with
  | Some (a, b), Some (c, d) => (a =? c) && (b =? d)
  | None, None => true
  | _, _ => false
  end.

Definition digits : list ascii := ["0"; "1"; "2"; "3"; "4"; "5"; "6"; "7"; "8"; "9"]%char.

(** Every character of a text passes a test. *)
Fixpoint all_chars (P : ascii -> bool) (s : string) : bool :=
  match s with
  | "" => true
  | String c r => P c && all_chars P r
  end.

(** The text does not contain the character. *)
Definition lacks (c : ascii) (s : string) : bool :=
  all_chars (fun x => negb (Ascii.eqb x c)) s.

(** The upper-case of the character is one character of the text: so it
    is for every character but U+00B5, U+00DF and U+00FF. *)
Definition single (c : ascii) : bool :=
  match Py.upper_char c with
  | Some (String _ "") => true
  | _ => false
  end.

(** What a correction table does to a character: upper-case it, then look
    it up. *)
Definition fix_with (f : MRZOCRCleaner.fixer) (c : ascii) : Py.wide :=
  option_map (fun u => MRZOCRCleaner.get f u u) (Py.upper_char c).

(** Two characters that the line splitter and the format guesser cannot
    tell apart: both or neither a space, a newline, a filler, a V. *)
Definition alike (c c' : ascii) : bool :=
  Bool.eqb (Ascii.eqb c' " ") (Ascii.eqb c " ")
  && Bool.eqb (Ascii.eqb c' Py.newline) (Ascii.eqb c Py.newline)
  && Bool.eqb (Ascii.eqb c' "<") (Ascii.eqb c "<")
  && Bool.eqb (Spec.is_V c') (Spec.is_V c).

Fixpoint alike_text (s s' : string) : bool :=
  match s, s' with
  | "", "" => true
  | String c r, String c' r' => alike c c' && alike_text r r'
  | _, _ => false
  end.

Fixpoint alike_lines (l l' : list string) : bool :=
  match l, l' with
  | [], [] => true
  | s :: r, s' :: r' => alike_text s s' && alike_lines r r'
  | _, _ => false
  end.

(** A correction of a character with a single upper-case gives one
    character, which is alike and which no second correction changes. *)
Definition fix_check (f : MRZOCRCleaner.fixer) (c : ascii) : bool :=
  match fix_with f c with
  | Some (String c' "") => alike c c' && Py.wide_eqb (fix_with f c') (String c' "")
  | _ => negb (single c)
  end.

(** The class has a correction table. *)
Definition known_class (cls : ascii) : bool :=
  match MRZOCRCleaner.fixer_of MRZOCRCleaner.FIXERS cls with
  | Ok _ => true
  | Raise _ => false
  end.

(** Lines as the cleaner keeps them: no space, no newline, long enough or
    with a double filler. *)
Definition clean_lines (ls : list string) : Prop :=
  Forall (fun l => lacks " " l = true) ls
  /\ Forall (fun l => lacks Py.newline l = true) ls
  /\ Forall (fun l => MRZOCRCleaner.keep l = true) ls.

End Aux.


(** ** Notions of the further properties *)

Module Derived.

(** The keys of [to_dict] for a value of [mrz_type], in order, when [aux]
    holds no [method]. *)
Definition projection_keys (mrz_type : attr) : list string :=
  match mrz_type with
  | ANone => [ "mrz_type"; "valid_score" ]
  | _ =>
      [ "mrz_type"; "valid_score"; "type"; "country"; "number"; "date_of_birth";
        "expiration_date"; "nationality"; "sex"; "names"; "surname" ]
      ++ (if MRZ_dict.is_type mrz_type TD1 then [ "optional1"; "optional2" ]
          else if MRZ_dict.is_type mrz_type TD3 then [ "personal_number" ]
          else [ "optional1" ])
      ++ [ "check_number"; "check_date_of_birth"; "check_expiration_date" ]
      ++ (if MRZ_dict.is_visa mrz_type then [] else [ "check_composite" ])
      ++ (if MRZ_dict.is_type mrz_type TD3 then [ "check_personal_number" ] else [])
      ++ [ "valid_number"; "valid_date_of_birth"; "valid_expiration_date" ]
      ++ (if MRZ_dict.is_visa mrz_type then [] else [ "valid_composite" ])
      ++ (if MRZ_dict.is_type mrz_type TD3 then [ "valid_personal_number" ] else [])
  end%list.

(** The attribute is a text of the given length. *)
Definition has_width (o : MRZ.obj) (k : string) (n : nat) : Prop :=
  exists s, lookup o k = Ok (AStr s) /\ String.length s = n.

(** A character that the table of its position's class would leave
    alone: it is its own upper-case, and no key of the table. *)
Definition settled (cls c : ascii) : bool :=
  match MRZOCRCleaner.fixer_of MRZOCRCleaner.FIXERS cls with
  | Ok f =>
      Py.wide_eqb (Py.upper_char c) (String c "")
      && negb (existsb (fun kv => Ascii.eqb (fst kv) c) f)
  | Raise _ => true
  end.

End Derived.

(** * Properties *)

(** ** The check digit *)

Section CheckDigit.

Import MRZCheckDigit Aux.
Local Open Scope Z_scope.

Lemma sum_from (l : list Z) (acc : Z) : fold_left Z.add l acc = acc + sum l.
Proof.
  unfold sum. revert acc.
  induction l as [|x l IH]; intro acc; simpl.
  - lia.
  - rewrite IH, (IH x). lia.
Qed.

Lemma sum_cons (x : Z) (l : list Z) : sum (x :: l) = x + sum l.
Proof. unfold sum at 1. simpl. rewrite sum_from. lia. Qed.

Lemma code_check_all (c : ascii) : code_check c = true.
Proof. destruct c as [[] [] [] [] [] [] [] []]; vm_compute; reflexivity. Qed.

Lemma code_in (c : ascii) :
  Spec.in_alphabet c = true ->
  get CHECK_CODES c (-1000) = Spec.value c /\ 0 <= Spec.value c <= 35.
Proof.
  intro H. pose proof (code_check_all c) as K. unfold code_check in K. rewrite H in K.
  apply andb_prop in K as [K K3]. apply andb_prop in K as [K1 K2]. lia.
Qed.

Lemma code_out (c : ascii) :
  Spec.in_alphabet c = false -> get CHECK_CODES c (-1000) = -1000.
Proof.
  intro H. pose proof (code_check_all c) as K. unfold code_check in K. rewrite H in K. lia.
Qed.

Lemma weight_nth (i : nat) : nth (i mod 3) CHECK_WEIGHTS 0 = Spec.weight i.
Proof.
  unfold Spec.weight, CHECK_WEIGHTS.
  pose proof (Nat.mod_upper_bound i 3 ltac:(lia)) as B.
  destruct (i mod 3)%nat as [|[|[|k]]]; simpl; try reflexivity; lia.
Qed.

Lemma weight_bounds (i : nat) : 1 <= Spec.weight i <= 7.
Proof. unfold Spec.weight. destruct (i mod 3)%nat as [|[|k]]; lia. Qed.

Lemma sum_products_alphabet (txt : string) (i : nat) :
  Spec.over_alphabet txt = true ->
  sum (products i txt) = Spec.weighted_sum i txt /\ 0 <= Spec.weighted_sum i txt.
Proof.
  revert i. induction txt as [|c r IH]; intros i H; cbn [products Spec.weighted_sum].
  - split; [reflexivity | lia].
  - cbn [Spec.over_alphabet] in H. apply andb_prop in H as [Hc Hr].
    destruct (IH (S i) Hr) as [E P]. destruct (code_in c Hc) as [V B].
    rewrite sum_cons, E, V, weight_nth. pose proof (weight_bounds i). split; [reflexivity | nia].
Qed.

Lemma str_digit (n : Z) : 0 <= n < 10 -> Py.str n = String (Spec.digit_char n) "".
Proof.
  intro B. rewrite <- (Z2Nat.id n) by lia.
  assert (Z.to_nat n < 10)%nat as L by lia. revert L. generalize (Z.to_nat n) as k.
  intro k. do 10 (destruct k as [|k]; [reflexivity|]). lia.
Qed.

(** C3. On a non-empty string over the MRZ alphabet the check digit is the
    decimal digit of the weighted sum (weights 7, 3, 1 in turn; digits count
    0-9, letters 10-35, the filler 0) modulo 10; the empty string gives the
    empty string, ["0"] gives ["0"] and ["111111111"] gives ["3"]. *)
Theorem check_digit_weighted_sum :
  (forall txt : string,
      txt <> "" -> Spec.over_alphabet txt = true ->
      compute txt = String (Spec.digit_char (Spec.weighted_sum 0 txt mod 10)) "")
  /\ compute "" = ""
  /\ compute "0" = "0"
  /\ compute "111111111" = "3".
Proof.
  split; [|repeat split; reflexivity].
  intros txt Hne Hal. unfold compute, __call__.
  destruct (String.eqb_spec txt "") as [E|_]; [contradiction|].
  destruct (sum_products_alphabet txt 0 Hal) as [E P]. rewrite E.
  destruct (Z.ltb_spec (Spec.weighted_sum 0 txt) 0) as [L|_]; [lia|].
  apply str_digit. apply Z.mod_pos_bound. lia.
Qed.

Lemma check_digit_weighted_sum_witness :
  compute "BBB<<<1B1<<<BB1" = "3".
Proof.
  exact (proj1 check_digit_weighted_sum "BBB<<<1B1<<<BB1"
           ltac:(discriminate) ltac:(reflexivity)).
Defined.

(** C1, at an input the documentation calls invalid: a document number
    with a lower-case letter in third position still gets a digit, because
    the eight capitals around it outweigh the penalty of 1000. *)
Theorem check_digit_lowercase_passes :
  sum (products 0 "ZZzZZZZZZ") = 120 /\ compute "ZZzZZZZZZ" = "0".
Proof. split; reflexivity. Qed.

Lemma code_cases (c : ascii) :
  (Spec.in_alphabet c = true /\ 0 <= get CHECK_CODES c (-1000) <= 35)
  \/ (Spec.in_alphabet c = false /\ get CHECK_CODES c (-1000) = -1000).
Proof.
  destruct (Spec.in_alphabet c) eqn:E.
  - left. destruct (code_in c E) as [V B]. rewrite V. auto.
  - right. split; [reflexivity | apply code_out, E].
Qed.

Ltac split_code c :=
  let z := fresh "z" in
  let Hz := fresh "Hz" in
  let Ha := fresh "Ha" in
  destruct (code_cases c) as [[Ha Hz]|[Ha Hz]];
  revert Hz; generalize (get CHECK_CODES c (-1000)); intros z Hz.

(** Up to seven characters the penalty cannot be outweighed: a character
    outside the alphabet makes the result empty. *)
Lemma short_invalid_empty (txt : string) :
  (String.length txt <= 7)%nat -> Spec.over_alphabet txt = false -> compute txt = "".
Proof.
  intros Hlen Hbad. unfold compute, __call__.
  destruct txt as [|c1 [|c2 [|c3 [|c4 [|c5 [|c6 [|c7 [|c8 r]]]]]]]];
    try (cbn [String.length] in Hlen; lia);
    try reflexivity;
    cbn [String.eqb products]; rewrite ?sum_cons; change (sum []) with 0;
    cbn [Spec.over_alphabet] in Hbad;
    repeat match goal with
           | |- context [get CHECK_CODES ?c (-1000)] => split_code c
           end;
    repeat match goal with
           | H : Spec.in_alphabet _ = _ |- _ => rewrite H in Hbad; clear H
           end;
    try discriminate Hbad;
    cbn [Nat.modulo Nat.divmod fst snd Nat.sub nth CHECK_WEIGHTS];
    match goal with
    | |- (if ?b then _ else _) = _ => replace b with true by (symmetry; apply Z.ltb_lt; lia)
    end; reflexivity.
Qed.

(** A six-character field with a one-character check digit that agrees is
    written in the alphabet. *)
Lemma matching_field_over_alphabet (field check : string) :
  (String.length field <= 7)%nat -> String.length check = 1%nat ->
  compute field = check -> Spec.over_alphabet field = true.
Proof.
  intros Hlen Hc E.
  destruct (Spec.over_alphabet field) eqn:O; [reflexivity|].
  rewrite (short_invalid_empty field Hlen O) in E. subst check. discriminate Hc.
Qed.

End CheckDigit.


(** ** The format guesser *)

Section GuessType.

Import MRZ_guess.

Lemma upper_is_V (c : ascii) : Py.wide_eqb (Py.upper (String c "")) "V" = Spec.is_V c.
Proof. destruct c as [[] [] [] [] [] [] [] []]; reflexivity. Qed.

Lemma first_is_V_text (m : mrz_input) (c : ascii) (r : string) (rest : list line) :
  elements m = Ok (LStr (String c r) :: rest) -> first_is_V m = Ok (Spec.is_V c).
Proof.
  intro E. unfold first_is_V, item, Py.index. rewrite E.
  cbn [bind nth_error text String.get]. now rewrite upper_is_V.
Qed.

Lemma guess_type_total (m : mrz_input) : exists t, _guess_type m = Ok t.
Proof.
  unfold _guess_type, try_except. destruct (body m) as [t|e]; eauto.
Qed.

(** C4. Three elements give TD1; two text lines both under 40 characters
    give MRVB when the first character is V or v and TD2 otherwise; two text
    lines not both under 40 give MRVA or TD3 in the same way; another number
    of elements gives None; and whenever a length query or an indexing
    raises, the result is None: the guesser itself never raises. *)
Theorem guess_type_rules :
  (forall m ls, elements m = Ok ls -> List.length ls = 3%nat ->
                _guess_type m = Ok (Some TD1))
  /\ (forall m c r b,
         elements m = Ok [LStr (String c r); LStr b] ->
         (String.length (String c r) < 40)%nat -> (String.length b < 40)%nat ->
         _guess_type m = Ok (Some (if Spec.is_V c then MRVB else TD2)))
  /\ (forall m c r b,
         elements m = Ok [LStr (String c r); LStr b] ->
         ~ ((String.length (String c r) < 40)%nat /\ (String.length b < 40)%nat) ->
         _guess_type m = Ok (Some (if Spec.is_V c then MRVA else TD3)))
  /\ (forall m ls, elements m = Ok ls -> List.length ls <> 3%nat -> List.length ls <> 2%nat ->
                   _guess_type m = Ok None)
  /\ (forall m e, body m = Raise e -> _guess_type m = Ok None)
  /\ (forall m, exists t, _guess_type m = Ok t).
Proof.
  repeat apply conj.
  - intros m ls E L. unfold _guess_type, body, len. rewrite E. cbn. now rewrite L.
  - intros m c r b E La Lb.
    unfold _guess_type, body, len, item. rewrite E.
    cbn [bind List.length Nat.eqb nth_error text].
    apply Nat.ltb_lt in La, Lb. rewrite La, Lb. cbn [bind].
    rewrite (first_is_V_text m c r _ E). reflexivity.
  - intros m c r b E N.
    unfold _guess_type, body, len, item. rewrite E.
    cbn [bind List.length Nat.eqb nth_error text].
    rewrite (first_is_V_text m c r _ E).
    destruct (Nat.ltb_spec (String.length (String c r)) 40) as [La|La]; cbn [bind];
      [destruct (Nat.ltb_spec (String.length b) 40) as [Lb|Lb]; cbn [bind]|];
      solve [reflexivity | exfalso; apply N; split; assumption].
  - intros m ls E N3 N2. unfold _guess_type, body, len. rewrite E. cbn [bind].
    destruct (Nat.eqb_spec (List.length ls) 3); [contradiction|].
    destruct (Nat.eqb_spec (List.length ls) 2); [contradiction|]. reflexivity.
  - intros m e E. unfold _guess_type. rewrite E. reflexivity.
  - apply guess_type_total.
Qed.

Lemma guess_type_rules_witness :
  _guess_type (InList [LStr "v<UTOERIKSSON<<ANNA"; LStr "L898902C<3UTO6908061F9406236"])
  = Ok (Some MRVB).
Proof.
  exact (proj1 (proj2 guess_type_rules)
           (InList [LStr "v<UTOERIKSSON<<ANNA"; LStr "L898902C<3UTO6908061F9406236"])
           "v"%char "<UTOERIKSSON<<ANNA" "L898902C<3UTO6908061F9406236"
           eq_refl ltac:(simpl; lia) ltac:(simpl; lia)).
Defined.


(** The second element is not looked at when the first has 40 characters
    or more. *)
Lemma guess_type_long_first (m : mrz_input) (c : ascii) (r : string) (l1 : line) :
  elements m = Ok [LStr (String c r); l1] -> (40 <= String.length (String c r))%nat ->
  _guess_type m = Ok (Some (if Spec.is_V c then MRVA else TD3)).
Proof.
  intros E La. unfold _guess_type, body, len, item. rewrite E.
  cbn [bind List.length Nat.eqb nth_error text].
  rewrite (first_is_V_text m c r _ E).
  destruct (Nat.ltb_spec (String.length (String c r)) 40) as [L|L]; [lia|]. reflexivity.
Qed.

End GuessType.


(** ** Reading the parsers backwards *)

Lemma bind_ok {A B : Type} (c : result A) (k : A -> result B) (b : B) :
  bind c k = Ok b -> exists a, c = Ok a /\ k a = Ok b.
Proof. destruct c as [a|e]; simpl; intro H; [eauto | discriminate]. Qed.

Lemma elements_unpack2 (m : mrz_input) (a b : line) :
  unpack2 m = Ok (a, b) -> elements m = Ok [a; b].
Proof.
  unfold unpack2. destruct (elements m) as [[|x [|y [|z r]]]|e]; simpl; intro H;
    try discriminate. now inversion H.
Qed.

Lemma elements_unpack3 (m : mrz_input) (a b c : line) :
  unpack3 m = Ok (a, b, c) -> elements m = Ok [a; b; c].
Proof.
  unfold unpack3. destruct (elements m) as [[|x [|y [|z [|w r]]]]|e]; simpl; intro H;
    try discriminate. now inversion H.
Qed.

Lemma text_ok (l : line) (s : string) : text l = Ok s -> l = LStr s.
Proof. destruct l; simpl; intro H; now inversion H. Qed.

(** One step backwards through a parser that returned. *)
Ltac back H :=
  lazymatch type of H with
  | bind _ _ = Ok _ =>
      let x := fresh "x" in
      let E := fresh "E" in
      apply bind_ok in H; destruct H as [x [E H]]; cbv beta in H
  | (let '(_, _) := ?p in _) = Ok _ => destruct p
  | (let _ := _ in _) = Ok _ => cbv zeta in H
  end.

Ltac backwards H := repeat back H.


(** ** The constructor *)

Section Constructor.

Import MRZ Aux.

Lemma set_all_ok (data : dict) (self : obj) : snd (set_all data self) = Ok tt.
Proof.
  revert self. induction data as [|[k v] r IH]; intro self; [reflexivity|].
  cbn [set_all]. unfold bindM, setattr. apply IH.
Qed.

Lemma select_parser_total (m : mrz_input) :
  exists cls, select_parser m = Ok (cls, m).
Proof.
  unfold select_parser, try_except.
  destruct (registered m) as [[cls m']|e] eqn:E.
  - unfold registered in E. backwards E. inversion E; subst. eauto.
  - cbn. eauto.
Qed.

(** What [MRZ(mrz_lines)] returns: the attributes of the dictionary on top
    of the type and [valid] when a type was guessed and its parser
    returned, the collapsed instance otherwise. *)
Lemma new_cases (m : mrz_input) :
  exists t cls,
    _guess_type m = Ok t /\ select_parser m = Ok (cls, m)
    /\ ((exists f v data,
            t = Some f /\ dispatch f (cls, m) = Ok (v, data) /\ new m = Ok (parsed f v data))
        \/ ((t = None \/ exists f e, t = Some f /\ dispatch f (cls, m) = Raise e)
            /\ new m = Ok degraded)).
Proof.
  destruct (guess_type_total m) as [t Ht].
  destruct (select_parser_total m) as [cls Hp].
  exists t, cls. split; [exact Ht|]. split; [exact Hp|].
  unfold new, __init__, _parse, bindM, lift, _guess_type. rewrite Ht, Hp.
  unfold try_exceptM, extract, bindM, getattr, setattr, take, bindM, lift.
  destruct t as [f|]; cbn [attr_of_type store lookup String.eqb Ascii.eqb Bool.eqb fst snd].
  - destruct (dispatch f (cls, m)) as [[v data]|e] eqn:D.
    + left. exists f, v, data. split; [reflexivity|]. split; [exact D|].
      unfold setattr, ret. cbn [store String.eqb Ascii.eqb Bool.eqb fst snd].
      pose proof (set_all_ok data [("mrz_type", AType f); ("valid", ABool v)]) as S.
      unfold parsed.
      destruct (set_all data [("mrz_type", AType f); ("valid", ABool v)]) as [s r].
      cbn [fst snd] in *. subst r. reflexivity.
    + right. split; [right; eauto|]. reflexivity.
  - right. split; [left; reflexivity|]. reflexivity.
Qed.

End Constructor.

(** Unfolds a parser that returned, and evaluates the attribute table built
    from its dictionary, leaving the values alone. *)
Ltac open_parser D :=
  cbv [MRZ.dispatch parse_td1 parse_td2 parse_td3 parse_mrv fst snd
       MRZBaseParser.parse_td1 MRZParserEsp.parse_td1 MRZBaseParser.parse_td2
       MRZBaseParser.parse_td3 MRZBaseParser.parse_mrv] in D;
  backwards D; inversion D; subst; clear D.

Ltac eval_attrs :=
  cbv [Aux.parsed MRZ.set_all MRZ.bindM MRZ.setattr MRZ.ret fst snd store lookup
       String.eqb Ascii.eqb Bool.eqb] in *.

Section Score.

Import MRZ Aux.
Local Open Scope Z_scope.

Lemma sum_bools_count (bs : list bool) : Py.sum_bools bs = Spec.count_true bs.
Proof.
  unfold Spec.count_true. induction bs as [|[] r IH]; cbn [Py.sum_bools filter List.length].
  - reflexivity.
  - rewrite IH. lia.
  - rewrite IH. lia.
Qed.

Lemma score_formula (cd ll misc : list bool) (total : Z) :
  score cd ll misc total
  = 100 * (10 * Spec.count_true cd + Spec.count_true ll + Spec.count_true misc + 1) / total.
Proof. unfold score. now rewrite !sum_bools_count. Qed.

(** C2. A parsed document holds the three validity vectors, and its
    [valid_score] is [floor (100 * (10 * #check digits + #line lengths +
    #misc + 1) / D)] with [D] = 45, 44, 54, 34 for TD1, TD2, TD3 and the
    visas; [valid] is the test [valid_score == 100]. *)
Theorem valid_score_formula (m : mrz_input) (o : obj) (t : mrz_format) :
  new m = Ok o -> lookup o "mrz_type" = Ok (AType t) ->
  exists cd ll misc sc,
    lookup o "valid_check_digits" = Ok (ABools cd)
    /\ lookup o "valid_line_lengths" = Ok (ABools ll)
    /\ lookup o "valid_misc" = Ok (ABools misc)
    /\ lookup o "valid_score" = Ok (AInt sc)
    /\ sc = 100 * (10 * Spec.count_true cd + Spec.count_true ll + Spec.count_true misc + 1)
            / Spec.D t
    /\ lookup o "valid" = Ok (ABool (sc =? 100)).
Proof.
  intros N T.
  destruct (new_cases m) as (t0 & cls & _ & _ & [(f & v & data & _ & D & E)|[_ E]]);
    rewrite E in N; inversion N; subst o; clear N E; [|discriminate T].
  destruct f; [destruct cls|..]; open_parser D; eval_attrs; inversion T; subst t;
    do 4 eexists; (repeat split; try reflexivity); apply score_formula.
Qed.

Lemma valid_score_formula_witness :
  exists o,
    new (InList [LStr "IDAUT10000999<6<<<<<<<<<<<<<<<"; LStr "7109094F1112315AUT<<<<<<<<<<<6";
                 LStr "MUSTERFRAU<<ISOLDE<<<<<<<<<<<<"]) = Ok o
    /\ exists cd ll misc sc,
        lookup o "valid_check_digits" = Ok (ABools cd)
        /\ lookup o "valid_line_lengths" = Ok (ABools ll)
        /\ lookup o "valid_misc" = Ok (ABools misc)
        /\ lookup o "valid_score" = Ok (AInt sc)
        /\ sc = 100 * (10 * Spec.count_true cd + Spec.count_true ll + Spec.count_true misc + 1)
                / Spec.D TD1
        /\ lookup o "valid" = Ok (ABool (sc =? 100)).
Proof.
  eexists. split; [vm_compute; reflexivity|].
  apply (valid_score_formula
           (InList [LStr "IDAUT10000999<6<<<<<<<<<<<<<<<"; LStr "7109094F1112315AUT<<<<<<<<<<<6";
                    LStr "MUSTERFRAU<<ISOLDE<<<<<<<<<<<<"]) _ TD1);
    vm_compute; reflexivity.
Defined.

End Score.

(** ** The swapped TD3 attributes *)

Section Td3Swap.

Import MRZ MRZ_dict Aux.

Ltac eval_dict :=
  cbv [to_dict put put_digit getattr bindM ret lift is_type is_visa has_key negb orb
       nth_error fst snd store lookup String.eqb Ascii.eqb Bool.eqb].

(** C5. On a parsed TD3 document the attribute [valid_personal_number]
    holds entry 3 of [valid_check_digits], the composite check, and
    [valid_composite] holds entry 4, the personal-number check, while
    [to_dict] files entry 3 under [valid_composite] and entry 4 under
    [valid_personal_number]; when the two entries differ the attribute
    [valid_composite] and the [to_dict] key of that name disagree. *)
Theorem td3_validity_attributes_swapped (m : mrz_input) (o : obj) :
  new m = Ok o -> lookup o "mrz_type" = Ok (AType TD3) ->
  exists (cd : list bool) (d : dict) (a b check_composite check_personal_number : string),
    elements m = Ok [LStr a; LStr b]
    /\ lookup o "check_composite" = Ok (AStr check_composite)
    /\ lookup o "check_personal_number" = Ok (AStr check_personal_number)
    /\ lookup o "valid_check_digits" = Ok (ABools cd)
    /\ List.length cd = 5%nat
    /\ nth 3 cd false
       = (let b := pad 44 44 b in
          String.eqb (MRZCheckDigit.compute
                        (Py.slice 0 10 b ++ Py.slice 13 20 b ++ Py.slice 21 43 b))
                     check_composite)
    /\ nth 4 cd false
       = MRZBaseParser.personal_ok (Py.slice 28 42 (pad 44 44 b)) check_personal_number
    /\ lookup o "valid_personal_number" = Ok (ABool (nth 3 cd false))
    /\ lookup o "valid_composite" = Ok (ABool (nth 4 cd false))
    /\ snd (to_dict o) = Ok d
    /\ lookup d "valid_composite" = Ok (ABool (nth 3 cd false))
    /\ lookup d "valid_personal_number" = Ok (ABool (nth 4 cd false))
    /\ (nth 3 cd false <> nth 4 cd false ->
        lookup o "valid_composite" <> lookup d "valid_composite").
Proof.
  intros N T.
  destruct (new_cases m) as (t0 & cls & _ & _ & [(f & v & data & _ & D & E)|[_ E]]);
    rewrite E in N; inversion N; subst o; clear N E; [|discriminate T].
  destruct f; [destruct cls|..]; open_parser D; eval_attrs; try discriminate T.
  match goal with
  | H : unpack2 _ = Ok (?la, ?lb), Ha : text ?la = Ok ?a, Hb : text ?lb = Ok ?b |- _ =>
      apply elements_unpack2 in H; apply text_ok in Ha, Hb; subst la lb; rename H into El
  end.
  eval_dict.
  do 6 eexists. split; [exact El|].
  repeat (split; [reflexivity|]).
  cbv [nth]. intros Hd Heq. apply Hd. now inversion Heq.
Qed.

Lemma td3_validity_attributes_swapped_witness :
  exists o d,
    new (InList [LStr "P<POLKOWALSKA<KWIATKOWSKA<<JOANNA<<<<<<<<<<<";
                 LStr "AA00000000POL6002084F1412314<<<<<<<<<<<<<<<5"]) = Ok o
    /\ snd (to_dict o) = Ok d
    /\ lookup o "valid_composite" = Ok (ABool true)
    /\ lookup d "valid_composite" = Ok (ABool false).
Proof.
  eexists. 
  destruct (td3_validity_attributes_swapped
              (InList [LStr "P<POLKOWALSKA<KWIATKOWSKA<<JOANNA<<<<<<<<<<<";
                       LStr "AA00000000POL6002084F1412314<<<<<<<<<<<<<<<5"]) _
              ltac:(vm_compute; reflexivity) ltac:(vm_compute; reflexivity))
    as (cd & d & a & b & cc & cp & _ & _ & _ & _ & _ & _ & _ & _ & _ & Hd & _).
  exists d. split; [reflexivity|]. split; [exact Hd|].
  vm_compute in Hd. inversion Hd; subst d. split; vm_compute; reflexivity.
Defined.

End Td3Swap.

(** ** The constructor never raises *)

Section Facade.

Import MRZ Aux.

(** C6, as the code has it. [MRZ(mrz_lines)] always returns an instance
    with [mrz_type], [valid], [valid_score] and [aux] set; when no type is
    guessed, or the parser of the guessed type raises, [mrz_type] is None,
    [valid] is false and [valid_score] is 0.  (A failed country lookup only
    selects the default parser.) *)
Theorem constructor_always_returns (m : mrz_input) :
  exists (o : obj) (ty : attr) (v : bool) (sc : Z),
    new m = Ok o
    /\ lookup o "mrz_type" = Ok ty
    /\ lookup o "valid" = Ok (ABool v)
    /\ lookup o "valid_score" = Ok (AInt sc)
    /\ lookup o "aux" = Ok (ADict [])
    /\ (ty = ANone \/ exists t, ty = AType t /\ _guess_type m = Ok (Some t))
    /\ (_guess_type m = Ok None -> ty = ANone /\ v = false /\ sc = 0%Z)
    /\ (forall cls t e,
           select_parser m = Ok (cls, m) -> _guess_type m = Ok (Some t) ->
           dispatch t (cls, m) = Raise e ->
           ty = ANone /\ v = false /\ sc = 0%Z).
Proof.
  destruct (new_cases m) as (t0 & cls & Ht & Hp & [(f & v & data & Hf & D & E)|[_ E]]).
  - subst t0. pose proof D as D'.
    destruct f; [destruct cls|..]; open_parser D; eval_attrs;
      do 4 eexists; (split; [exact E|]); eval_attrs;
      (repeat (split; [reflexivity|]));
      (split; [right; eauto|]);
      (split; [intro G; rewrite G in Ht; discriminate Ht|]);
      intros cls' t e Hp' Ht' Hd; rewrite Hp' in Hp; rewrite Ht' in Ht;
      inversion Hp; inversion Ht; subst; rewrite Hd in D'; discriminate D'.
  - exists degraded, ANone, false, 0%Z.
    split; [exact E|]. repeat (split; [reflexivity|]). split; [now left|]. split; auto.
Qed.

(** The claim as stated fails at the specimen Austrian card: looking up
    [AUT] in the registry raises, and the card parses with score 100. *)
Lemma failed_country_lookup_still_parses :
  ~ (forall (m : mrz_input) (o : obj) (e : exn),
        new m = Ok o -> registered m = Raise e ->
        lookup o "mrz_type" = Ok ANone /\ lookup o "valid" = Ok (ABool false)
        /\ lookup o "valid_score" = Ok (AInt 0)).
Proof.
  intro H.
  destruct (H (InList [LStr "IDAUT10000999<6<<<<<<<<<<<<<<<";
                       LStr "7109094F1112315AUT<<<<<<<<<<<4";
                       LStr "MUSTERFRAU<<ISOLDE<<<<<<<<<<<<"]) _ KeyError
              ltac:(vm_compute; reflexivity) ltac:(vm_compute; reflexivity)) as [T _].
  vm_compute in T. discriminate T.
Qed.

End Facade.

(** ** Country dispatch and the Spanish layout *)

Section Dispatch.

Import MRZ Aux.

Lemma lookup_registry (country : string) :
  lookup supported_parsers country
  = if String.eqb "ESP" country then Ok EspParser
    else if String.eqb "default" country then Ok BaseParser
    else Raise KeyError.
Proof. reflexivity. Qed.

Lemma slice_2_5_length (s : string) : (String.length (Py.slice 2 5 s) <= 3)%nat.
Proof.
  unfold Py.slice.
  destruct s as [|c0 [|c1 [|c2 [|c3 [|c4 r]]]]]; cbn; try lia.
  destruct r; cbn; lia.
Qed.

Lemma select_parser_cases (m : mrz_input) :
  (exists s rest, elements m = Ok (LStr s :: rest) /\ Py.slice 2 5 s = "ESP"
                  /\ select_parser m = Ok (EspParser, m))
  \/ (~ (exists s rest, elements m = Ok (LStr s :: rest) /\ Py.slice 2 5 s = "ESP")
      /\ select_parser m = Ok (BaseParser, m)).
Proof.
  unfold select_parser, registered, item.
  destruct (elements m) as [[|[s|n|] rest]|e] eqn:E; cbn [bind nth_error text try_except];
    try (right; split; [intros (s' & r' & H & _); discriminate H | reflexivity]).
  rewrite lookup_registry.
  destruct (String.eqb_spec "ESP" (Py.slice 2 5 s)) as [C|C].
  - left. exists s, rest. cbn. auto.
  - right. split.
    + intros (s' & r' & H & K). inversion H; subst. congruence.
    + destruct (String.eqb_spec "default" (Py.slice 2 5 s)) as [C'|C']; [|reflexivity].
      pose proof (slice_2_5_length s) as L. rewrite <- C' in L. cbn in L. lia.
Qed.

Lemma lookup_same_but (k0 : string) (x y : attr) (d d' : dict) (k : string) :
  k <> k0 -> lookup d k = lookup d' k ->
  lookup ((k0, x) :: d) k = lookup ((k0, y) :: d') k.
Proof.
  intros N H. cbn [lookup]. destruct (String.eqb_spec k0 k); [congruence | exact H].
Qed.

Lemma lookup_same (k0 : string) (x : attr) (d d' : dict) (k : string) :
  lookup d k = lookup d' k ->
  lookup ((k0, x) :: d) k = lookup ((k0, x) :: d') k.
Proof. intro H. cbn [lookup]. now rewrite H. Qed.

(** C7. The class is chosen by characters 2 to 4 of the first line:
    [ESP] selects the Spanish parser; any other code, and any failure of
    the lookup (no first line, a first line that is not text or is too
    short), selects the default one.  On a TD1 card the Spanish parser reads
    [number] from columns 15-23 where the default reads columns 5-13; the
    check digit stays at column 14, the composite check is the default one,
    and every entry of the dictionary other than [number], [valid_number],
    [valid_check_digits], [valid_score] is the default's. *)
Theorem esp_layout :
  (forall m,
      exists cls, select_parser m = Ok (cls, m)
                  /\ (cls = EspParser \/ cls = BaseParser)
                  /\ (cls = EspParser <->
                      exists s rest, elements m = Ok (LStr s :: rest) /\ Py.slice 2 5 s = "ESP"))
  /\ (forall m e, registered m = Raise e -> select_parser m = Ok (BaseParser, m))
  /\ (forall a b c v data,
         parse_td1 (EspParser, InList [LStr a; LStr b; LStr c]) = Ok (v, data) ->
         exists v' data' cd cd' check_number check_composite,
           parse_td1 (BaseParser, InList [LStr a; LStr b; LStr c]) = Ok (v', data')
           /\ lookup data "number" = Ok (AStr (Py.slice 15 24 (pad 30 30 a)))
           /\ lookup data' "number" = Ok (AStr (Py.slice 5 14 (pad 30 30 a)))
           /\ Py.index (pad 30 30 a) 14 = Ok check_number
           /\ lookup data "check_number" = Ok (AStr check_number)
           /\ Py.index (pad 30 30 b) 29 = Ok check_composite
           /\ lookup data "check_composite" = Ok (AStr check_composite)
           /\ lookup data "valid_check_digits" = Ok (ABools cd)
           /\ lookup data' "valid_check_digits" = Ok (ABools cd')
           /\ nth 0 cd false
              = String.eqb (MRZCheckDigit.compute (Py.slice 15 24 (pad 30 30 a))) check_number
           /\ nth 3 cd false
              = (let a := pad 30 30 a in
                 let b := pad 30 30 b in
                 String.eqb (MRZCheckDigit.compute
                               (Py.slice 5 30 a ++ Py.slice 0 7 b ++ Py.slice 8 15 b
                                ++ Py.slice 18 29 b))
                            check_composite)
           /\ nth 3 cd' false = nth 3 cd false
           /\ (forall k, k <> "number" -> k <> "valid_number" -> k <> "valid_check_digits" ->
                         k <> "valid_score" -> lookup data k = lookup data' k)).
Proof.
  repeat apply conj.
  - intro m. destruct (select_parser_cases m) as [(s & rest & E & C & S)|[N S]].
    + exists EspParser. split; [exact S|]. split; [now left|]. split; eauto.
    + exists BaseParser. split; [exact S|]. split; [now right|].
      split; [discriminate | intro H; contradiction].
  - intros m e R. unfold select_parser. rewrite R. reflexivity.
  - intros a b c v data D.
    cbv [parse_td1 fst snd MRZParserEsp.parse_td1 MRZBaseParser.parse_td1].
    cbv [parse_td1 fst snd MRZParserEsp.parse_td1] in D.
    backwards D. inversion D; subst; clear D.
    cbv [unpack3 elements bind] in E. inversion E; subst; clear E.
    cbv [text] in E0, E1, E2. inversion E0; inversion E1; inversion E2; subst.
    cbv [unpack3 elements text]. cbn [bind].
    repeat match goal with
           | H : ?c = Ok _ |- context [bind ?c _] => rewrite H; cbn [bind]
           end.
    do 6 eexists. split; [reflexivity|].
    do 11 (split; [reflexivity|]).
    intros k N1 N2 N3 N4.
    repeat first [ apply lookup_same | apply lookup_same_but; [assumption|] ].
    reflexivity.
Qed.

Lemma esp_layout_witness :
  exists v data,
    parse_td1 (EspParser, InList [LStr "IDESPBHV122738599999999R<<<<<<";
                                  LStr "8001014F3106028ESP<<<<<<<<<<<1";
                                  LStr "ESPANOLA<ESPANOLA<<CARMEN<<<<<"]) = Ok (v, data)
    /\ lookup data "number" = Ok (AStr "99999999R").
Proof.
  do 2 eexists. split; [vm_compute; reflexivity|].
  destruct (proj2 (proj2 esp_layout)
              "IDESPBHV122738599999999R<<<<<<" "8001014F3106028ESP<<<<<<<<<<<1"
              "ESPANOLA<ESPANOLA<<CARMEN<<<<<" _ _ ltac:(vm_compute; reflexivity))
    as (v' & data' & cd & cd' & cn & cc & _ & Hn & _).
  exact Hn.
Defined.

End Dispatch.

(** ** Lengths of padded lines and of the fields cut from them *)

Section Lengths.

Lemma append_length (s t : string) :
  String.length (s ++ t) = (String.length s + String.length t)%nat.
Proof. induction s as [|c s IH]; cbn; [reflexivity | now rewrite IH]. Qed.

Lemma repeat_length (c : ascii) (n : nat) : String.length (Py.repeat c n) = n.
Proof. induction n as [|n IH]; cbn; [reflexivity | now rewrite IH]. Qed.

Lemma substring_length (n m : nat) (s : string) :
  String.length (substring n m s) = Nat.min m (String.length s - n).
Proof.
  revert n m. induction s as [|c s IH]; intros [|n] [|m]; cbn; try reflexivity.
  - now rewrite IH, Nat.sub_0_r.
  - apply IH.
  - apply IH.
Qed.

Lemma slice_length (i j : nat) (s : string) :
  (j <= String.length s)%nat -> String.length (Py.slice i j s) = (j - i)%nat.
Proof. intro H. unfold Py.slice. rewrite substring_length. lia. Qed.

(** A short line is filled up to [target]; any other is left alone. *)
Lemma pad_short (limit target : nat) (a : string) :
  (String.length a < limit)%nat -> (limit <= target)%nat ->
  pad limit target a = a ++ Py.repeat "<" (target - String.length a)
  /\ String.length (pad limit target a) = target.
Proof.
  intros H L. unfold pad. apply Nat.ltb_lt in H as H'. rewrite H'.
  split; [reflexivity|]. rewrite append_length, repeat_length. lia.
Qed.

Lemma pad_long (limit target : nat) (a : string) :
  (limit <= String.length a)%nat -> pad limit target a = a.
Proof. intro H. unfold pad. apply Nat.ltb_ge in H. now rewrite H. Qed.

Lemma pad_length (limit target : nat) (a : string) :
  (limit <= target)%nat -> (limit <= String.length (pad limit target a))%nat.
Proof.
  intro L. destruct (Nat.lt_ge_cases (String.length a) limit) as [H|H].
  - destruct (pad_short limit target a H L) as [_ E]. lia.
  - now rewrite pad_long.
Qed.

Lemma get_in_range (s : string) (i : nat) :
  (i < String.length s)%nat -> exists c, String.get i s = Some c.
Proof.
  revert i. induction s as [|c s IH]; intros i H; cbn in H; [lia|].
  destruct i as [|i]; cbn; [eauto | apply IH; lia].
Qed.

Lemma index_in_range (s : string) (i : nat) :
  (i < String.length s)%nat -> exists c, Py.index s i = Ok (String c "").
Proof.
  intro H. destruct (get_in_range s i H) as [c E]. exists c. unfold Py.index. now rewrite E.
Qed.

Lemma index_char (s x : string) (i : nat) :
  Py.index s i = Ok x -> exists c, x = String c "".
Proof.
  unfold Py.index. destruct (String.get i s) as [c|]; intro H; inversion H. eauto.
Qed.

Lemma six_characters (s : string) :
  String.length s = 6%nat ->
  exists c1 c2 c3 c4 c5 c6,
    s = String c1 (String c2 (String c3 (String c4 (String c5 (String c6 ""))))).
Proof.
  destruct s as [|c1 [|c2 [|c3 [|c4 [|c5 [|c6 [|c7 r]]]]]]]; cbn; intro H; try discriminate H.
  repeat eexists.
Qed.

End Lengths.

(** ** Dates *)

Section Dates.

Import Strptime Aux.
Local Open Scope Z_scope.

Lemma two_in (p1 p2 : ascii -> bool) (f : ascii -> ascii -> Z) (s rest : string) (v : Z) :
  In (v, rest) (two p1 p2 f s) ->
  exists c1 c2, s = String c1 (String c2 rest) /\ p1 c1 = true /\ p2 c2 = true /\ v = f c1 c2.
Proof.
  unfold two. destruct s as [|c1 [|c2 r]]; try solve [intros []].
  destruct (p1 c1) eqn:P1; destruct (p2 c2) eqn:P2; cbn; try solve [intros []].
  intros [H|[]]. inversion H; subst. exists c1, c2. auto.
Qed.

Lemma one_in (p : ascii -> bool) (s rest : string) (v : Z) :
  In (v, rest) (one p s) -> exists c, s = String c rest /\ p c = true /\ v = digit c.
Proof.
  unfold one. destruct s as [|c r]; try solve [intros []].
  destruct (p c) eqn:P; cbn; try solve [intros []].
  intros [H|[]]. inversion H; subst. exists c. auto.
Qed.

Lemma eqb_digit (k c : ascii) : is_digit k = true -> Ascii.eqb k c = true -> is_digit c = true.
Proof. intros K E. apply Ascii.eqb_eq in E. now subst. Qed.

Lemma range_digit (lo hi c : ascii) :
  is_digit lo = true -> is_digit hi = true -> in_range lo hi c = true -> is_digit c = true.
Proof.
  unfold is_digit, in_range. intros L H R.
  apply andb_prop in L as [L1 L2]. apply andb_prop in H as [H1 H2].
  apply andb_prop in R as [R1 R2].
  apply Nat.leb_le in L1, L2, H1, H2, R1, R2.
  apply andb_true_intro. split; apply Nat.leb_le; lia.
Qed.

(** Every alternative of the month takes two digits or one character. *)
Lemma match_m_in (s rest : string) (v : Z) :
  In (v, rest) (match_m s) ->
  (exists c1 c2, s = String c1 (String c2 rest) /\ is_digit c1 = true /\ is_digit c2 = true)
  \/ (exists c, s = String c rest).
Proof.
  unfold match_m. rewrite !in_app_iff.
  intros [H|[H|H]].
  - apply two_in in H as (c1 & c2 & E & P1 & P2 & _). left. exists c1, c2.
    split; [exact E|]. split.
    + exact (eqb_digit "1" c1 eq_refl P1).
    + exact (range_digit "0" "2" c2 eq_refl eq_refl P2).
  - apply two_in in H as (c1 & c2 & E & P1 & P2 & _). left. exists c1, c2.
    split; [exact E|]. split.
    + exact (eqb_digit "0" c1 eq_refl P1).
    + exact (range_digit "1" "9" c2 eq_refl eq_refl P2).
  - apply one_in in H as (c & E & _). right. eauto.
Qed.

(** Every alternative of the day takes two digits, a space and a digit, or
    one character. *)
Lemma match_d_in (s rest : string) (v : Z) :
  In (v, rest) (match_d s) ->
  (exists c1 c2, s = String c1 (String c2 rest)
                 /\ ((is_digit c1 = true /\ is_digit c2 = true) \/ c1 = " "%char))
  \/ (exists c, s = String c rest).
Proof.
  unfold match_d. rewrite !in_app_iff.
  intros [H|[H|[H|[H|H]]]];
    try (apply two_in in H as (c1 & c2 & E & P1 & P2 & _); left; exists c1, c2;
         split; [exact E|]).
  - left. split.
    + exact (eqb_digit "3" c1 eq_refl P1).
    + exact (range_digit "0" "1" c2 eq_refl eq_refl P2).
  - left. split; [exact (range_digit "1" "2" c1 eq_refl eq_refl P1) | exact P2].
  - left. split.
    + exact (eqb_digit "0" c1 eq_refl P1).
    + exact (range_digit "1" "9" c2 eq_refl eq_refl P2).
  - apply one_in in H as (c & E & _). right. eauto.
  - right. apply Ascii.eqb_eq in P1. now subst.
Qed.

Lemma month_day_in (s rest : string) (m d : Z) :
  In (m, d, rest) (month_day s) ->
  exists r2, In (m, r2) (match_m s) /\ In (d, rest) (match_d r2).
Proof.
  unfold month_day. rewrite in_flat_map. intros [[m' r2] [Hm Hd]].
  apply in_map_iff in Hd as [[d' r3] [E Hd]]. inversion E; subst. eauto.
Qed.

(** A match that uses up four characters read two digits for the month,
    and two digits or a space and a digit for the day. *)
Lemma month_day_full (m1 m2 d1 d2 : ascii) (m d : Z) :
  In (m, d, "") (month_day (String m1 (String m2 (String d1 (String d2 ""))))) ->
  is_digit m1 = true /\ is_digit m2 = true
  /\ ((is_digit d1 = true /\ is_digit d2 = true) \/ d1 = " "%char).
Proof.
  intro H. apply month_day_in in H as (r2 & Hm & Hd).
  apply match_m_in in Hm as [(c1 & c2 & E & D1 & D2)|(c & E)];
    inversion E; subst; clear E;
    apply match_d_in in Hd as [(e1 & e2 & E & K)|(e & E)]; inversion E; subst; auto.
Qed.

Lemma full_match_in (r : string) (m d : Z) :
  full_match r = Some (m, d) -> In (m, d, "") (month_day r).
Proof.
  unfold full_match. destruct (month_day r) as [|[[m' d'] [|c rest]] tl];
    intro H; inversion H; subst. now left.
Qed.

Lemma digit_in_digits (c : ascii) : is_digit c = true -> In c digits.
Proof.
  destruct c as [[] [] [] [] [] [] [] []]; intro H; try discriminate H; cbn; tauto.
Qed.

Lemma month_day_check_ok :
  forallb (fun m1 => forallb (fun m2 => forallb (fun d1 => forallb (fun d2 =>
    same (full_match (String m1 (String m2 (String d1 (String d2 ""))))) (expected m1 m2 d1 d2))
    digits) digits) digits) digits = true.
Proof. vm_compute. reflexivity. Qed.

Lemma same_eq (x y : option (Z * Z)) : same x y = true -> x = y.
Proof.
  destruct x as [[a b]|], y as [[c d]|]; cbn; intro H; try discriminate H; [|reflexivity].
  apply andb_prop in H as [H1 H2]. apply Z.eqb_eq in H1, H2. now subst.
Qed.

Lemma full_match_digits (m1 m2 d1 d2 : ascii) :
  is_digit m1 = true -> is_digit m2 = true -> is_digit d1 = true -> is_digit d2 = true ->
  full_match (String m1 (String m2 (String d1 (String d2 "")))) = expected m1 m2 d1 d2.
Proof.
  intros H1 H2 H3 H4. apply digit_in_digits in H1, H2, H3, H4.
  apply same_eq.
  exact (proj1 (forallb_forall _ _)
           (proj1 (forallb_forall _ _)
              (proj1 (forallb_forall _ _)
                 (proj1 (forallb_forall _ _) month_day_check_ok m1 H1) m2 H2) d1 H3) d2 H4).
Qed.

Lemma full_match_not_digits (m1 m2 d1 d2 : ascii) :
  d1 <> " "%char ->
  is_digit m1 && is_digit m2 && is_digit d1 && is_digit d2 = false ->
  full_match (String m1 (String m2 (String d1 (String d2 "")))) = None.
Proof.
  intros S N.
  destruct (full_match (String m1 (String m2 (String d1 (String d2 ""))))) as [[m d]|] eqn:F;
    [|reflexivity].
  apply full_match_in, month_day_full in F as (D1 & D2 & [[D3 D4]|D3]); [|contradiction].
  rewrite D1, D2, D3, D4 in N. discriminate N.
Qed.

Lemma strptime_six (y1 y2 : ascii) (r : string) :
  strptime_ymd (String y1 (String y2 r))
  = if is_digit y1 && is_digit y2 then
      match month_day r with
      | [] => Raise ValueError
      | (m, d, rest) :: _ =>
          if String.eqb rest "" then
            let y := num y1 y2 in
            let year := if y <=? 68 then y + 2000 else y + 1900 in
            if d <=? days_in_month year m then Ok (year, m, d) else Raise ValueError
          else Raise ValueError
      end
    else Raise ValueError.
Proof.
  unfold strptime_ymd, matches, match_y, two.
  destruct (is_digit y1 && is_digit y2); [|reflexivity].
  cbn [flat_map]. rewrite app_nil_r.
  destruct (month_day r) as [|[[m d] rest] tl]; reflexivity.
Qed.

Lemma days_in_month_length (year month : Z) :
  1 <= month <= 12 -> days_in_month year month = Spec.month_length year month.
Proof.
  intro B. rewrite <- (Z2Nat.id month) by lia.
  assert (1 <= Z.to_nat month <= 12)%nat as L by lia. revert L.
  generalize (Z.to_nat month) as k. intros k L.
  destruct k as [|k]; [lia|].
  do 12 (destruct k as [|k]; [reflexivity|]). lia.
Qed.

Lemma month_length_bound (year month : Z) : Spec.month_length year month <= 31.
Proof.
  unfold Spec.month_length.
  destruct month as [|p|p]; try lia;
    repeat (destruct p as [p|p|]; try lia);
    destruct ((year mod 4 =? 0) && (negb (year mod 100 =? 0) || (year mod 400 =? 0)))%bool; lia.
Qed.

Lemma num_two_digits (c1 c2 : ascii) :
  is_digit c1 = true -> is_digit c2 = true -> num c1 c2 = Spec.two_digits c1 c2.
Proof.
  unfold num, Spec.two_digits, digit, Spec.value, Spec.is_digit. intros H1 H2.
  unfold is_digit in H1, H2. cbv zeta in H1, H2. rewrite H1, H2.
  apply andb_prop in H1 as [A1 _]. apply andb_prop in H2 as [A2 _].
  apply Nat.leb_le in A1, A2. lia.
Qed.

(** On six characters the fifth of which is no space, [_check_date] is the
    calendar test. *)
Lemma check_date_calendar (y1 y2 m1 m2 d1 d2 : ascii) :
  d1 <> " "%char ->
  let ymd := String y1 (String y2 (String m1 (String m2 (String d1 (String d2 ""))))) in
  MRZBaseParser._check_date ymd = Ok (Spec.calendar_date ymd).
Proof.
  intros S ymd. subst ymd. unfold MRZBaseParser._check_date. rewrite strptime_six.
  unfold Spec.calendar_date.
  change Spec.is_digit with is_digit.
  destruct (is_digit y1 && is_digit y2) eqn:Y; [|cbn [andb]; reflexivity].
  apply andb_prop in Y as [Y1 Y2]. cbn [andb].
  destruct (is_digit m1 && is_digit m2 && is_digit d1 && is_digit d2) eqn:D; cbn [andb].
  - apply andb_prop in D as [D D4]. apply andb_prop in D as [D D3].
    apply andb_prop in D as [D1 D2].
    pose proof (full_match_digits m1 m2 d1 d2 D1 D2 D3 D4) as F.
    rewrite <- (num_two_digits y1 y2 Y1 Y2).
    unfold full_match, expected in F. cbv zeta in F |- *.
    set (month := Spec.two_digits m1 m2) in *. set (day := Spec.two_digits d1 d2) in *.
    set (y := num y1 y2) in *.
    replace (if y <=? 68 then 2000 + y else 1900 + y)
      with (if y <=? 68 then y + 2000 else y + 1900) by (destruct (y <=? 68); lia).
    set (year := if y <=? 68 then y + 2000 else y + 1900) in *.
    pose proof (month_length_bound year month) as MB.
    destruct ((1 <=? month) && (month <=? 12) && (1 <=? day) && (day <=? 31))%bool eqn:R.
    + destruct (month_day _) as [|[[m d] [|c rest]] tl]; inversion F; subst m d.
      cbn [String.eqb].
      apply andb_prop in R as [R R4]. apply andb_prop in R as [R R3].
      apply andb_prop in R as [R1 R2]. rewrite R1, R2, R3. cbn [andb].
      rewrite days_in_month_length by lia.
      destruct (day <=? Spec.month_length year month); reflexivity.
    + assert ((1 <=? month) && (month <=? 12) && (1 <=? day)
              && (day <=? Spec.month_length year month) = false)%bool as R'.
      { destruct (1 <=? month); destruct (month <=? 12); destruct (1 <=? day); cbn in *;
          try reflexivity. apply Z.leb_gt. apply Z.leb_gt in R. lia. }
      rewrite R'.
      destruct (month_day _) as [|[[m d] [|c rest]] tl]; try discriminate F; reflexivity.
  - pose proof (full_match_not_digits m1 m2 d1 d2 S D) as F.
    unfold full_match in F.
    destruct (month_day _) as [|[[m d] [|c rest]] tl]; try discriminate F; reflexivity.
Qed.

Lemma check_date_total (ymd : string) : exists b, MRZBaseParser._check_date ymd = Ok b.
Proof.
  unfold MRZBaseParser._check_date, strptime_ymd.
  destruct (matches ymd) as [|[[[y m] d] rest] tl]; [eauto|].
  destruct (String.eqb rest ""); [|eauto].
  destruct (d <=? _); eauto.
Qed.

(** On a six-character field and a one-character check digit, the date
    test of TD1, TD2 and TD3 holds exactly when the digit agrees and the
    field is a calendar date. *)
Lemma date_ok_calendar (field check : string) (b : bool) :
  String.length field = 6%nat -> String.length check = 1%nat ->
  MRZBaseParser.date_ok field check = Ok b ->
  (b = true <-> MRZCheckDigit.compute field = check /\ Spec.calendar_date field = true).
Proof.
  intros L6 L1. unfold MRZBaseParser.date_ok.
  destruct (String.eqb_spec (MRZCheckDigit.compute field) check) as [E|N].
  - pose proof (matching_field_over_alphabet field check ltac:(lia) L1 E) as O.
    destruct (six_characters field L6) as (y1 & y2 & m1 & m2 & d1 & d2 & F). subst field.
    assert (d1 <> " "%char) as S.
    { intro K. subst d1. cbn [Spec.over_alphabet] in O.
      repeat (apply andb_prop in O as [? O]). discriminate. }
    rewrite (check_date_calendar y1 y2 m1 m2 d1 d2 S). intro H. inversion H; subst b. tauto.
  - intro H. inversion H; subst b. split; [discriminate | tauto].
Qed.

End Dates.

Section DateEntries.

Import MRZ Aux.

Ltac field_length :=
  rewrite slice_length; [reflexivity | etransitivity; [|apply pad_length; lia]; lia].

Ltac check_length :=
  match goal with
  | H : Py.index _ _ = Ok ?x |- String.length ?x = _ =>
      destruct (index_char _ _ _ H) as [? ->]; reflexivity
  end.

(** C8. On a parsed TD1, TD2 or TD3 document, entries 1 and 2 of
    [valid_check_digits] are true exactly when the check digit of
    [date_of_birth], respectively [expiration_date], agrees and the field is
    a calendar date written YYMMDD; on a parsed MRVA or MRVB document they
    are true exactly when the check digit agrees. *)
Theorem date_entries (m : mrz_input) (o : obj) (t : mrz_format) :
  new m = Ok o -> lookup o "mrz_type" = Ok (AType t) ->
  exists (cd : list bool) (birth check_birth expiry check_expiry : string),
    lookup o "valid_check_digits" = Ok (ABools cd)
    /\ lookup o "date_of_birth" = Ok (AStr birth)
    /\ lookup o "check_date_of_birth" = Ok (AStr check_birth)
    /\ lookup o "expiration_date" = Ok (AStr expiry)
    /\ lookup o "check_expiration_date" = Ok (AStr check_expiry)
    /\ (nth 1 cd false = true <->
        MRZCheckDigit.compute birth = check_birth
        /\ match t with
           | MRVA | MRVB => True
           | _ => Spec.calendar_date birth = true
           end)
    /\ (nth 2 cd false = true <->
        MRZCheckDigit.compute expiry = check_expiry
        /\ match t with
           | MRVA | MRVB => True
           | _ => Spec.calendar_date expiry = true
           end).
Proof.
  intros N T.
  destruct (new_cases m) as (t0 & cls & _ & _ & [(f & v & data & _ & D & E)|[_ E]]);
    rewrite E in N; inversion N; subst o; clear N E; [|discriminate T].
  destruct f; [destruct cls|..]; open_parser D;
    cbv [parsed set_all bindM setattr ret fst snd store lookup
         String.eqb Ascii.eqb Bool.eqb] in T;
    inversion T; subst t; clear T; do 5 eexists; (do 5 (split; [reflexivity|])); cbn [nth];
    first
      [ split; (eapply date_ok_calendar; [| |eassumption]; [field_length | check_length])
      | split; rewrite String.eqb_eq; tauto ].
Qed.

Lemma date_entries_witness :
  exists o cd,
    new (InList [LStr "I<UTOERIKSSON<<ANNA<MARIA<<<<<<<<<<<";
                 LStr "D231458907UTO7402304F1204159<<<<<<<6"]) = Ok o
    /\ lookup o "valid_check_digits" = Ok (ABools cd)
    /\ nth 1 cd false = false /\ nth 2 cd false = true
    /\ MRZCheckDigit.compute "740230" = "4" /\ Spec.calendar_date "740230" = false.
Proof.
  eexists.
  destruct (date_entries
              (InList [LStr "I<UTOERIKSSON<<ANNA<MARIA<<<<<<<<<<<";
                       LStr "D231458907UTO7402304F1204159<<<<<<<6"]) _ TD2
              ltac:(vm_compute; reflexivity) ltac:(vm_compute; reflexivity))
    as (cd & b & cb & e & ce & Hcd & _).
  exists cd. split; [reflexivity|]. split; [exact Hcd|].
  vm_compute in Hcd. inversion Hcd; subst cd. repeat split; vm_compute; reflexivity.
Defined.

End DateEntries.

(** ** Padding *)

Section Padding.

(** C9, where it fails.  A visa of the short format is parsed with
    [length = 36], yet a line under 36 characters is filled up to 44, the
    length of the long format: the filler count is [44 - len(a)] whatever
    [length] is. *)
Theorem mrvb_short_line_padded_to_44 :
  Spec.required_length MRVB = 36%nat
  /\ String.length "V<UTOERIKSSON<<ANNA<MARIA" = 25%nat
  /\ pad 36 44 "V<UTOERIKSSON<<ANNA<MARIA" = "V<UTOERIKSSON<<ANNA<MARIA<<<<<<<<<<<<<<<<<<<"
  /\ String.length (pad 36 44 "V<UTOERIKSSON<<ANNA<MARIA") = 44%nat.
Proof. repeat split. Qed.

End Padding.

(** ** The OCR cleaner *)

Section SplitJoin.

Import Aux.

Lemma split_lines_nonempty (s : string) : Py.split_lines s <> [].
Proof.
  induction s as [|c s IH]; cbn [Py.split_lines]; [intro H; discriminate H|].
  destruct (Ascii.eqb c Py.newline); [intro H; discriminate H|].
  destruct (Py.split_lines s); intro H; discriminate H.
Qed.

Lemma split_lines_pieces (P : ascii -> bool) (s : string) :
  all_chars (fun c => P c || Ascii.eqb c Py.newline) s = true ->
  Forall (fun l => all_chars P l = true) (Py.split_lines s).
Proof.
  induction s as [|c s IH]; cbn [all_chars Py.split_lines]; intro H.
  - repeat constructor.
  - apply andb_prop in H as [Hc Hs]. specialize (IH Hs).
    destruct (Ascii.eqb c Py.newline) eqn:E.
    + constructor; [reflexivity | exact IH].
    + rewrite orb_false_r in Hc.
      destruct (Py.split_lines s) as [|h t]; [repeat constructor; cbn; now rewrite Hc|].
      inversion IH; subst. constructor; [cbn; now rewrite Hc | assumption].
Qed.

Lemma all_chars_weaken (P Q : ascii -> bool) (s : string) :
  (forall c, P c = true -> Q c = true) -> all_chars P s = true -> all_chars Q s = true.
Proof.
  intro W. induction s as [|c s IH]; cbn; [reflexivity|].
  intro H. apply andb_prop in H as [Hc Hs]. now rewrite (W c Hc), IH.
Qed.

(** The pieces of a split hold no newline, and no space when the text had
    none. *)
Lemma split_lines_lack_newline (s : string) :
  Forall (fun l => lacks Py.newline l = true) (Py.split_lines s).
Proof.
  apply split_lines_pieces. induction s as [|c s IH]; cbn [all_chars]; [reflexivity|].
  rewrite IH. now destruct (Ascii.eqb c Py.newline).
Qed.

Lemma split_lines_lack_space (s : string) :
  lacks " " s = true -> Forall (fun l => lacks " " l = true) (Py.split_lines s).
Proof.
  intro H. apply split_lines_pieces. revert H. apply all_chars_weaken.
  intros c Hc. now rewrite Hc.
Qed.

Lemma remove_spaces_lacks (s : string) : lacks " " (Py.remove_spaces s) = true.
Proof.
  unfold lacks in *. induction s as [|c s IH]; cbn [Py.remove_spaces]; [reflexivity|].
  destruct (Ascii.eqb c " ") eqn:E; [exact IH|]. cbn [all_chars]. now rewrite E, IH.
Qed.

Lemma remove_spaces_id (s : string) : lacks " " s = true -> Py.remove_spaces s = s.
Proof.
  unfold lacks. induction s as [|c s IH]; cbn [Py.remove_spaces all_chars]; [reflexivity|].
  intro H. apply andb_prop in H as [Hc Hs].
  destruct (Ascii.eqb c " "); [discriminate Hc|]. now rewrite IH.
Qed.

Lemma lacks_append (c : ascii) (s t : string) :
  lacks c (s ++ t) = lacks c s && lacks c t.
Proof.
  unfold lacks. induction s as [|x s IH]; cbn; [reflexivity|]. now rewrite IH, andb_assoc.
Qed.

Lemma join_lines_lack_space (ls : list string) :
  Forall (fun l => lacks " " l = true) ls -> lacks " " (Py.join_lines ls) = true.
Proof.
  induction 1 as [|l rest Hl Hrest IH]; [reflexivity|].
  cbn [Py.join_lines]. destruct rest as [|l' rest']; [exact Hl|].
  rewrite lacks_append, Hl. cbn [andb]. unfold lacks in *. cbn [all_chars]. now rewrite IH.
Qed.

Lemma split_lines_single (l : string) :
  lacks Py.newline l = true -> Py.split_lines l = [l].
Proof.
  unfold lacks. induction l as [|c l IH]; cbn [all_chars Py.split_lines]; [reflexivity|].
  intro H. apply andb_prop in H as [Hc Hl].
  destruct (Ascii.eqb c Py.newline); [discriminate Hc|]. now rewrite IH.
Qed.

Lemma split_lines_append (l t : string) :
  lacks Py.newline l = true ->
  Py.split_lines (l ++ String Py.newline t) = l :: Py.split_lines t.
Proof.
  unfold lacks. induction l as [|c l IH]; cbn [append Py.split_lines all_chars].
  - now rewrite Ascii.eqb_refl.
  - intro H. apply andb_prop in H as [Hc Hl].
    destruct (Ascii.eqb c Py.newline); [discriminate Hc|]. now rewrite IH.
Qed.

(** Splitting what was joined gives the lines back, when there is at least
    one line and none holds a newline. *)
Lemma split_join (ls : list string) :
  ls <> [] -> Forall (fun l => lacks Py.newline l = true) ls ->
  Py.split_lines (Py.join_lines ls) = ls.
Proof.
  intros N H. induction H as [|l rest Hl Hrest IH]; [contradiction|].
  cbn [Py.join_lines]. destruct rest as [|l' rest'].
  - now apply split_lines_single.
  - rewrite split_lines_append by exact Hl. f_equal. apply IH. discriminate.
Qed.

Lemma filter_all {A : Type} (f : A -> bool) (l : list A) :
  Forall (fun x => f x = true) l -> filter f l = l.
Proof. induction 1 as [|x l Hx Hl IH]; cbn; [reflexivity|]. now rewrite Hx, IH. Qed.

Lemma filter_Forall {A : Type} (f : A -> bool) (P : A -> Prop) (l : list A) :
  Forall P l -> Forall P (filter f l).
Proof.
  induction 1 as [|x l Hx Hl IH]; cbn; [constructor|].
  destruct (f x); [constructor|]; assumption.
Qed.

Lemma filter_keeps {A : Type} (f : A -> bool) (l : list A) :
  Forall (fun x => f x = true) (filter f l).
Proof.
  induction l as [|x l IH]; cbn; [constructor|].
  destruct (f x) eqn:E; [constructor|]; assumption.
Qed.

Lemma split_lines_clean (s : string) : clean_lines (MRZOCRCleaner._split_lines s).
Proof.
  unfold clean_lines, MRZOCRCleaner._split_lines. repeat split.
  - apply filter_Forall, split_lines_lack_space, remove_spaces_lacks.
  - apply filter_Forall, split_lines_lack_newline.
  - apply filter_keeps.
Qed.

(** Joining clean lines and splitting them again changes nothing. *)
Lemma split_lines_join (ls : list string) :
  clean_lines ls -> MRZOCRCleaner._split_lines (Py.join_lines ls) = ls.
Proof.
  intros (S & N & K). unfold MRZOCRCleaner._split_lines.
  destruct ls as [|l rest]; [reflexivity|].
  rewrite remove_spaces_id by now apply join_lines_lack_space.
  rewrite split_join by (assumption || discriminate).
  now apply filter_all.
Qed.

End SplitJoin.

Section Cleaner.

Import MRZOCRCleaner Aux.

Lemma fix_check_a (c : ascii) : fix_check a_fixer c = true.
Proof. destruct c as [[] [] [] [] [] [] [] []]; reflexivity. Qed.

Lemma fix_check_n (c : ascii) : fix_check n_fixer c = true.
Proof. destruct c as [[] [] [] [] [] [] [] []]; reflexivity. Qed.

Lemma fix_check_none (c : ascii) : fix_check [] c = true.
Proof. destruct c as [[] [] [] [] [] [] [] []]; reflexivity. Qed.

Lemma fixer_cases (cls : ascii) (f : fixer) :
  fixer_of FIXERS cls = Ok f -> f = a_fixer \/ f = n_fixer \/ f = [].
Proof.
  unfold FIXERS. cbn [fixer_of].
  repeat match goal with
         | |- context [if ?b then _ else _] => destruct b
         end; intro H; inversion H; auto.
Qed.

Lemma fix_check_known (cls : ascii) (f : fixer) (c : ascii) :
  fixer_of FIXERS cls = Ok f -> fix_check f c = true.
Proof.
  intro H. destruct (fixer_cases cls f H) as [->|[->| ->]];
    [apply fix_check_a | apply fix_check_n | apply fix_check_none].
Qed.

Lemma alike_refl (c : ascii) : alike c c = true.
Proof. unfold alike. now rewrite !Bool.eqb_reflx. Qed.

Lemma wide_eqb_eq (w : Py.wide) (t : string) : Py.wide_eqb w t = true -> w = Some t.
Proof.
  destruct w as [s|]; cbn [Py.wide_eqb]; [|discriminate].
  intro H. apply String.eqb_eq in H. now subst.
Qed.

(** The characters without a single upper-case, by name. *)
Lemma single_cases (c : ascii) :
  single c
  = negb (Ascii.eqb c "181" || Ascii.eqb c "223" || Ascii.eqb c "255")%char.
Proof. destruct c as [[] [] [] [] [] [] [] []]; reflexivity. Qed.

(** A character with a single upper-case is corrected to one character,
    which is alike the original, and correcting that one again at the same
    place changes nothing. *)
Lemma fix_char_alike (c : ascii) (w : Py.wide) (t : mrz_format) (i j : nat) :
  single c = true -> _fix_char c t i j = Ok w ->
  exists c',
    w = Some (String c' "") /\ alike c c' = true
    /\ _fix_char c' t i j = Ok (Some (String c' "")).
Proof.
  intro S. unfold _fix_char. destruct (nth_error (FORMAT t) i) as [fmt|]; [|discriminate].
  destruct (String.length fmt <=? j)%nat.
  - intro H. inversion H; subst. exists c. split; [reflexivity|].
    split; [apply alike_refl | reflexivity].
  - destruct (String.get j fmt) as [cls|]; [|discriminate].
    destruct (fixer_of FIXERS cls) as [f|e] eqn:F; cbn [bind]; [|discriminate].
    intro H. inversion H; subst w. clear H.
    pose proof (fix_check_known cls f c F) as K. unfold fix_check in K.
    fold (fix_with f c). destruct (fix_with f c) as [[|c' [|x r]]|];
      try (rewrite S in K; discriminate K).
    apply andb_prop in K as [K1 K2]. apply wide_eqb_eq in K2.
    exists c'. split; [reflexivity|]. split; [exact K1|].
    fold (fix_with f c'). now rewrite K2.
Qed.

Lemma fix_from_alike (t : mrz_format) (i : nat) (ln : string) :
  forall (j : nat) (w : Py.wide),
    all_chars single ln = true -> fix_from j ln t i = Ok w ->
    exists ln',
      w = Some ln' /\ alike_text ln ln' = true /\ fix_from j ln' t i = Ok (Some ln').
Proof.
  induction ln as [|c r IH]; intros j w; cbn [fix_from all_chars].
  - intros _ H. inversion H; subst. exists "". repeat split.
  - intro S. apply andb_prop in S as [Sc Sr].
    destruct (_fix_char c t i j) as [wc|e] eqn:C; cbn [bind]; [|discriminate].
    destruct (fix_from (S j) r t i) as [wr|e] eqn:R; cbn [bind]; [|discriminate].
    intro H. inversion H; subst w. clear H.
    destruct (fix_char_alike _ _ _ _ _ Sc C) as (c' & -> & A & C').
    destruct (IH _ _ Sr R) as (r' & -> & A' & R').
    exists (String c' r'). split; [reflexivity|].
    cbn [alike_text fix_from]. rewrite A, A', C', R'. split; reflexivity.
Qed.

Lemma fix_lines_alike (t : mrz_format) (lines : list string) :
  forall (i : nat) (w : option (list string)),
    Forall (fun l => all_chars single l = true) lines ->
    fix_lines i lines t = Ok w ->
    exists lines',
      w = Some lines' /\ alike_lines lines lines' = true
      /\ fix_lines i lines' t = Ok (Some lines').
Proof.
  induction lines as [|l r IH]; intros i w Hs; cbn [fix_lines].
  - intro H. inversion H; subst. exists []. repeat split.
  - inversion Hs as [|? ? Sl Sr]; subst. unfold _fix_line.
    destruct (fix_from 0 l t i) as [wl|e] eqn:L; cbn [bind]; [|discriminate].
    destruct (fix_lines (S i) r t) as [wr|e] eqn:R; cbn [bind]; [|discriminate].
    intro H. inversion H; subst w. clear H.
    destruct (fix_from_alike _ _ _ _ _ Sl L) as (l' & -> & A & L').
    destruct (IH _ _ Sr R) as (r' & -> & A' & R').
    exists (l' :: r'). split; [reflexivity|].
    cbn [alike_lines fix_lines]. unfold _fix_line. rewrite A, A', L', R'. split; reflexivity.
Qed.

(** The kept lines are made of characters of the text. *)
Lemma remove_spaces_all_chars (P : ascii -> bool) (s : string) :
  all_chars P s = true -> all_chars P (Py.remove_spaces s) = true.
Proof.
  induction s as [|c s IH]; cbn [Py.remove_spaces all_chars]; [reflexivity|].
  intro H. apply andb_prop in H as [Hc Hs].
  destruct (Ascii.eqb c " "); [now apply IH|]. cbn [all_chars]. now rewrite Hc, IH.
Qed.

Lemma split_lines_all_chars (P : ascii -> bool) (txt : string) :
  all_chars P txt = true -> Forall (fun l => all_chars P l = true) (_split_lines txt).
Proof.
  intro H. unfold _split_lines. apply filter_Forall, split_lines_pieces.
  apply (all_chars_weaken P); [intros c Hc; now rewrite Hc|].
  now apply remove_spaces_all_chars.
Qed.

(** *** The cleaner does not raise *)

Lemma format_classes_known (t : mrz_format) :
  Forall (fun fmt => all_chars known_class fmt = true) (FORMAT t).
Proof. destruct t; repeat constructor. Qed.

Lemma get_all_chars (P : ascii -> bool) (s : string) :
  forall (j : nat) (c : ascii),
    all_chars P s = true -> String.get j s = Some c -> P c = true.
Proof.
  induction s as [|x s IH]; intros j c H G; [discriminate G|].
  cbn [all_chars] in H. apply andb_prop in H as [Hx Hs].
  destruct j as [|j]; cbn in G; [inversion G; now subst | eapply IH; eauto].
Qed.

Lemma fix_char_total (c : ascii) (t : mrz_format) (i j : nat) :
  (i < List.length (FORMAT t))%nat -> exists w, _fix_char c t i j = Ok w.
Proof.
  intro B. unfold _fix_char.
  destruct (nth_error (FORMAT t) i) as [fmt|] eqn:N;
    [|apply nth_error_None in N; lia].
  destruct (Nat.leb_spec (String.length fmt) j) as [L|L]; [eauto|].
  destruct (get_in_range fmt j L) as [cls G]. rewrite G.
  pose proof (format_classes_known t) as K. rewrite Forall_forall in K.
  specialize (K fmt (nth_error_In _ _ N)).
  pose proof (get_all_chars _ _ _ _ K G) as Q. unfold known_class in Q.
  destruct (fixer_of FIXERS cls); [cbn; eauto | discriminate Q].
Qed.

Lemma fix_from_total (t : mrz_format) (i : nat) (ln : string) :
  (i < List.length (FORMAT t))%nat -> forall j, exists w, fix_from j ln t i = Ok w.
Proof.
  intro B. induction ln as [|c r IH]; intro j; cbn [fix_from]; [eauto|].
  destruct (fix_char_total c t i j B) as [c' C]. destruct (IH (S j)) as [r' R].
  rewrite C, R. cbn. eauto.
Qed.

Lemma fix_lines_total (t : mrz_format) (lines : list string) :
  forall i, (i + List.length lines <= List.length (FORMAT t))%nat ->
            exists w, fix_lines i lines t = Ok w.
Proof.
  induction lines as [|l r IH]; intros i B; cbn [fix_lines]; [eauto|].
  cbn [List.length] in B.
  destruct (fix_from_total t i l ltac:(lia) 0) as [l' L].
  destruct (IH (S i) ltac:(lia)) as [r' R].
  unfold _fix_line. rewrite L, R. cbn. eauto.
Qed.

(** *** What alike lines share *)

Lemma alike_parts (c c' : ascii) :
  alike c c' = true ->
  Ascii.eqb c' " " = Ascii.eqb c " "
  /\ Ascii.eqb c' Py.newline = Ascii.eqb c Py.newline
  /\ Ascii.eqb c' "<" = Ascii.eqb c "<"
  /\ Spec.is_V c' = Spec.is_V c.
Proof.
  unfold alike. intro H.
  apply andb_prop in H as [H H4]. apply andb_prop in H as [H H3].
  apply andb_prop in H as [H1 H2].
  apply Bool.eqb_prop in H1, H2, H3, H4. auto.
Qed.

Lemma alike_text_length (s : string) :
  forall s', alike_text s s' = true -> String.length s' = String.length s.
Proof.
  induction s as [|c r IH]; intros [|c' r'] H; try discriminate H; [reflexivity|].
  cbn [alike_text] in H. apply andb_prop in H as [_ H]. cbn. now rewrite (IH _ H).
Qed.

Lemma alike_text_lacks_space (s : string) :
  forall s', alike_text s s' = true -> lacks " " s' = lacks " " s.
Proof.
  unfold lacks. induction s as [|c r IH]; intros [|c' r'] H; try discriminate H; [reflexivity|].
  cbn [alike_text] in H. apply andb_prop in H as [A H].
  destruct (alike_parts _ _ A) as (E & _). cbn [all_chars]. now rewrite E, (IH _ H).
Qed.

Lemma alike_text_lacks_newline (s : string) :
  forall s', alike_text s s' = true -> lacks Py.newline s' = lacks Py.newline s.
Proof.
  unfold lacks. induction s as [|c r IH]; intros [|c' r'] H; try discriminate H; [reflexivity|].
  cbn [alike_text] in H. apply andb_prop in H as [A H].
  destruct (alike_parts _ _ A) as (_ & E & _). cbn [all_chars]. now rewrite E, (IH _ H).
Qed.

Lemma starts_with_filler (r : string) :
  match r with String "<" _ => true | _ => false end
  = match r with String x _ => Ascii.eqb x "<" | "" => false end.
Proof. destruct r as [|[[] [] [] [] [] [] [] []] r]; reflexivity. Qed.

Lemma alike_text_contains (s : string) :
  forall s', alike_text s s' = true -> Py.contains_ll s' = Py.contains_ll s.
Proof.
  induction s as [|c r IH]; intros [|c' r'] H; try discriminate H; [reflexivity|].
  cbn [alike_text] in H. apply andb_prop in H as [A H].
  destruct (alike_parts _ _ A) as (_ & _ & E & _).
  cbn [Py.contains_ll]. rewrite !starts_with_filler, E, (IH _ H). f_equal. f_equal.
  destruct r as [|x r], r' as [|x' r']; try discriminate H; [reflexivity|].
  cbn [alike_text] in H. apply andb_prop in H as [A' _].
  now destruct (alike_parts _ _ A') as (_ & _ & E' & _).
Qed.

Lemma alike_text_keep (s s' : string) :
  alike_text s s' = true -> keep s' = keep s.
Proof.
  intro H. unfold keep. now rewrite (alike_text_length _ _ H), (alike_text_contains _ _ H).
Qed.

Lemma alike_lines_clean (ls : list string) :
  forall ls', alike_lines ls ls' = true -> clean_lines ls -> clean_lines ls'.
Proof.
  unfold clean_lines.
  induction ls as [|l r IH]; intros [|l' r'] H; try discriminate H; [auto|].
  cbn [alike_lines] in H. apply andb_prop in H as [A H].
  intros (S & N & K). inversion S; inversion N; inversion K; subst.
  destruct (IH r' H) as (S' & N' & K'); [auto|].
  repeat split; constructor; try assumption.
  - now rewrite (alike_text_lacks_space _ _ A).
  - now rewrite (alike_text_lacks_newline _ _ A).
  - now rewrite (alike_text_keep _ _ A).
Qed.

(** *** The guesser on text lines *)

Lemma guess_type_two_lines (a b : string) :
  MRZ._guess_type (InList [LStr a; LStr b])
  = Ok match a with
       | "" => None
       | String c _ =>
           Some (if (String.length a <? 40)%nat && (String.length b <? 40)%nat
                 then (if Spec.is_V c then MRVB else TD2)
                 else (if Spec.is_V c then MRVA else TD3))
       end.
Proof.
  unfold MRZ._guess_type, MRZ_guess._guess_type, MRZ_guess.body, len, item.
  cbn [elements bind List.length Nat.eqb nth_error text].
  destruct a as [|c r].
  - cbn [String.length Nat.ltb Nat.leb bind].
    match goal with
    | |- context [if ?c then _ else _] => destruct c
    end; reflexivity.
  - rewrite (first_is_V_text (InList [LStr (String c r); LStr b]) c r [LStr b] eq_refl).
    destruct (String.length (String c r) <? 40)%nat; cbn [bind andb]; [|reflexivity].
    destruct (String.length b <? 40)%nat; reflexivity.
Qed.

Lemma guess_type_alike (ls ls' : list string) :
  alike_lines ls ls' = true ->
  MRZ._guess_type (InList (map LStr ls')) = MRZ._guess_type (InList (map LStr ls)).
Proof.
  destruct ls as [|a [|b [|c [|d r]]]], ls' as [|a' [|b' [|c' [|d' r']]]];
    cbn [alike_lines]; rewrite ?andb_false_r; intro H; try discriminate H;
    try reflexivity.
  cbn [map]. rewrite !guess_type_two_lines.
  apply andb_prop in H as [A H]. apply andb_prop in H as [B _].
    rewrite (alike_text_length _ _ A), (alike_text_length _ _ B).
    destruct a as [|x a], a' as [|x' a']; try discriminate A; [reflexivity|].
    cbn [alike_text] in A. apply andb_prop in A as [A _].
    destruct (alike_parts _ _ A) as (_ & _ & _ & E). now rewrite E.
Qed.

Lemma guess_type_lines_count (ls : list string) (t : mrz_format) :
  MRZ._guess_type (InList (map LStr ls)) = Ok (Some t) ->
  List.length ls = List.length (FORMAT t).
Proof.
  destruct ls as [|a [|b [|c [|d r]]]]; cbn [map].
  - intro H. discriminate H.
  - intro H. discriminate H.
  - rewrite guess_type_two_lines. destruct a as [|x a]; [discriminate|].
    intro H. inversion H as [E]. clear H.
    repeat match goal with
           | |- context [if ?b then _ else _] => destruct b
           end; reflexivity.
  - intro H. cbv in H. inversion H. reflexivity.
  - intro H. exfalso. revert H.
    unfold MRZ._guess_type, MRZ_guess._guess_type, MRZ_guess.body, len.
    cbn [elements bind map List.length Nat.eqb]. discriminate.
Qed.

(** C10, as corrected.  On a text whose characters all have a single
    upper-case (every character but U+00B5, U+00DF and U+00FF, so every
    ASCII text), the cleaner returns, and cleaning the newline-joined result
    of a cleaning gives that result again: the lines kept by the filter hold
    no space and no newline, so they are split and kept as they are; the
    guessed type is the same, since corrections preserve lengths and the
    leading V; and no correction applies to a corrected character. *)
Theorem cleanup_idempotent (txt : string) :
  all_chars single txt = true ->
  exists lines,
    apply txt = Ok (Some lines) /\ apply (Py.join_lines lines) = Ok (Some lines).
Proof.
  intro S. unfold apply, __call__.
  pose proof (split_lines_clean txt) as C.
  pose proof (split_lines_all_chars single txt S) as S'.
  set (lines := _split_lines txt) in *.
  destruct (guess_type_total (InList (map LStr lines))) as [tp G].
  change MRZ._guess_type with MRZ_guess._guess_type. rewrite G. cbn [bind].
  destruct tp as [t|].
  - destruct (fix_lines_total t lines 0) as [w F].
    { rewrite (guess_type_lines_count lines t G). cbn. lia. }
    destruct (fix_lines_alike t lines 0 w S' F) as (lines' & -> & A & F').
    exists lines'. split; [exact F|].
    rewrite (split_lines_join lines' (alike_lines_clean _ _ A C)).
    change MRZ_guess._guess_type with MRZ._guess_type.
    rewrite (guess_type_alike lines lines' A).
    change MRZ._guess_type with MRZ_guess._guess_type. rewrite G. cbn [bind]. exact F'.
  - exists lines. split; [reflexivity|].
    rewrite (split_lines_join lines C). rewrite G. reflexivity.
Qed.

Lemma cleanup_idempotent_witness :
  exists lines,
    apply ("P<POLKOWALSKA<<JOANNA" ++ String Py.newline "AA0000000OPOL6OOzoB4Fi4iz3I4")
    = Ok (Some lines)
    /\ apply (Py.join_lines lines) = Ok (Some lines).
Proof.
  exact (cleanup_idempotent
           ("P<POLKOWALSKA<<JOANNA" ++ String Py.newline "AA0000000OPOL6OOzoB4Fi4iz3I4")
           eq_refl).
Defined.

(** C10, as the claim has it, fails on a sharp s.  The second line holds
    U+00DF at position 9, a numeric position of TD2: its upper-case is the
    two letters SS, so the cleaned line is one character longer; cleaned
    again, the first S stands at the numeric position and becomes 5. *)
Lemma sharp_s_cleaned_twice_differs :
  apply ("P<<" ++ String Py.newline ("<<<<<<<<<" ++ String "223" ""))
  = Ok (Some ["P<<"; "<<<<<<<<<SS"])
  /\ apply (Py.join_lines ["P<<"; "<<<<<<<<<SS"]) = Ok (Some ["P<<"; "<<<<<<<<<5S"]).
Proof. split; reflexivity. Qed.

End Cleaner.


(** * Further properties *)

(** ** More on the check digit *)

Section CheckDigitMore.

Import MRZCheckDigit Aux.
Local Open Scope Z_scope.

(** The result is the empty string or one decimal digit, whatever the
    text. *)
Theorem check_digit_shape (txt : string) :
  compute txt = ""
  \/ exists n, 0 <= n <= 9 /\ compute txt = String (Spec.digit_char n) "".
Proof.
  unfold compute, __call__.
  destruct (String.eqb txt ""); [now left|].
  destruct (sum (products 0 txt) <? 0); [now left|].
  right. exists (sum (products 0 txt) mod 10).
  pose proof (Z.mod_pos_bound (sum (products 0 txt)) 10 ltac:(lia)) as B.
  split; [lia | apply str_digit; lia].
Qed.

(** Up to seven characters a character outside the alphabet always gives
    the empty result; eight characters are enough to outweigh the penalty. *)
Theorem penalty_holds_up_to_seven :
  (forall txt : string,
      (String.length txt <= 7)%nat -> Spec.over_alphabet txt = false -> compute txt = "")
  /\ (exists txt : string,
         String.length txt = 8%nat /\ Spec.over_alphabet txt = false /\ compute txt <> "").
Proof.
  split; [exact short_invalid_empty|].
  exists "ZZ ZZZZZ". repeat split. discriminate.
Qed.

Lemma penalty_holds_up_to_seven_witness : compute "0 0" = "".
Proof.
  exact (proj1 penalty_holds_up_to_seven "0 0" ltac:(cbn; lia) ltac:(reflexivity)).
Defined.

Lemma check_digit_general (txt : string) :
  txt <> "" -> Spec.over_alphabet txt = true ->
  compute txt = String (Spec.digit_char (Spec.weighted_sum 0 txt mod 10)) "".
Proof.
  intros Hne Hal. unfold compute, __call__.
  destruct (String.eqb_spec txt "") as [E|_]; [contradiction|].
  destruct (sum_products_alphabet txt 0 Hal) as [E P]. rewrite E.
  destruct (Z.ltb_spec (Spec.weighted_sum 0 txt) 0) as [L|_]; [lia|].
  apply str_digit. apply Z.mod_pos_bound. lia.
Qed.

Lemma sum_app (l l' : list Z) : sum (l ++ l') = sum l + sum l'.
Proof.
  induction l as [|x l IH]; cbn [app].
  - unfold sum at 2. cbn. lia.
  - rewrite !sum_cons, IH. lia.
Qed.

Lemma products_app (s t : string) :
  forall i, products i (s ++ t) = (products i s ++ products (i + String.length s) t)%list.
Proof.
  induction s as [|c s IH]; intro i; cbn [append products String.length app].
  - now rewrite Nat.add_0_r.
  - rewrite IH. do 3 f_equal. lia.
Qed.

Lemma products_fillers (n : nat) : forall i, sum (products i (Py.repeat "<" n)) = 0.
Proof.
  induction n as [|n IH]; intro i; cbn [Py.repeat products]; [reflexivity|].
  rewrite sum_cons, IH. change (get CHECK_CODES "<" (-1000)) with 0. lia.
Qed.

(** Fillers at the end do not count: a text that is not empty has the
    check digit of the same text followed by any number of [<]. *)
Theorem trailing_fillers_neutral (txt : string) (n : nat) :
  txt <> "" -> compute (txt ++ Py.repeat "<" n) = compute txt.
Proof.
  intro N. unfold compute, __call__.
  destruct txt as [|c r]; [contradiction|]. cbn [append String.eqb].
  change (String c (r ++ Py.repeat "<" n)) with (String c r ++ Py.repeat "<" n).
  now rewrite products_app, sum_app, products_fillers, Z.add_0_r.
Qed.

Lemma trailing_fillers_neutral_witness :
  compute ("10000999" ++ Py.repeat "<" 1) = compute "10000999".
Proof. exact (trailing_fillers_neutral "10000999" 1 ltac:(discriminate)). Defined.

Lemma digit_char_inj (n n' : Z) :
  0 <= n <= 9 -> 0 <= n' <= 9 -> Spec.digit_char n = Spec.digit_char n' -> n = n'.
Proof.
  unfold Spec.digit_char. intros B B' E.
  apply (f_equal nat_of_ascii) in E. rewrite !nat_ascii_embedding in E by lia. lia.
Qed.

Lemma weighted_sum_app (s t : string) :
  forall i, Spec.weighted_sum i (s ++ t)
            = Spec.weighted_sum i s + Spec.weighted_sum (i + String.length s) t.
Proof.
  induction s as [|c s IH]; intro i; cbn [append Spec.weighted_sum String.length].
  - now rewrite Nat.add_0_r.
  - rewrite IH. replace (S i + String.length s)%nat with (i + S (String.length s))%nat by lia.
    lia.
Qed.

Lemma over_alphabet_app (s t : string) :
  Spec.over_alphabet (s ++ t) = Spec.over_alphabet s && Spec.over_alphabet t.
Proof.
  induction s as [|c s IH]; cbn [append Spec.over_alphabet]; [reflexivity|].
  now rewrite IH, andb_assoc.
Qed.

Lemma digit_value (c : ascii) :
  Spec.is_digit c = true -> Spec.in_alphabet c = true /\ 0 <= Spec.value c <= 9.
Proof.
  intro D. unfold Spec.in_alphabet, Spec.value. rewrite D. split; [reflexivity|].
  unfold Spec.is_digit in D. apply andb_prop in D as [L U].
  apply Nat.leb_le in L, U. lia.
Qed.

Lemma value_inj (c c' : ascii) :
  Spec.is_digit c = true -> Spec.is_digit c' = true -> Spec.value c = Spec.value c' -> c = c'.
Proof.
  intros D D' E. unfold Spec.value in E. rewrite D, D' in E.
  rewrite <- (ascii_nat_embedding c), <- (ascii_nat_embedding c'). f_equal. lia.
Qed.

(** Replacing one digit by another digit, anywhere in a text over the
    alphabet, changes the check digit: the weights 7, 3 and 1 are prime to
    10. *)
Theorem single_digit_error_detected (before after : string) (d d' : ascii) :
  Spec.over_alphabet before = true -> Spec.over_alphabet after = true ->
  Spec.is_digit d = true -> Spec.is_digit d' = true -> d <> d' ->
  compute (before ++ String d after) <> compute (before ++ String d' after).
Proof.
  intros Ob Oa D D' N.
  destruct (digit_value d D) as [A V]. destruct (digit_value d' D') as [A' V'].
  assert (forall x, Spec.in_alphabet x = true ->
                    Spec.over_alphabet (before ++ String x after) = true) as O.
  { intros x Hx. rewrite over_alphabet_app, Ob. cbn [Spec.over_alphabet]. now rewrite Hx, Oa. }
  assert (forall x, before ++ String x after <> "") as NE
    by (intro x; destruct before; discriminate).
  pose proof check_digit_general as G.
  rewrite (G _ (NE d) (O d A)), (G _ (NE d') (O d' A')). clear G.
  rewrite !weighted_sum_app. cbn [Spec.weighted_sum].
  set (p := Spec.weighted_sum 0 before).
  set (q := Spec.weighted_sum (S (0 + String.length before)) after).
  set (w := Spec.weight (0 + String.length before)).
  intro E. inversion E as [E']. clear E.
  apply digit_char_inj in E';
    try (match goal with |- _ <= ?x mod 10 <= _ => pose proof (Z.mod_pos_bound x 10); lia end).
  assert (w = 7 \/ w = 3 \/ w = 1) as W.
  { subst w. unfold Spec.weight. destruct (_ mod 3)%nat as [|[|k]]; auto. }
  assert (Spec.value d = Spec.value d') as EV.
  { destruct W as [W|[W|W]]; rewrite W in E'; Z.to_euclidean_division_equations; lia. }
  exact (N (value_inj d d' D D' EV)).
Qed.

Lemma single_digit_error_detected_witness :
  compute ("D2314" ++ String "5" "890") <> compute ("D2314" ++ String "6" "890").
Proof.
  exact (single_digit_error_detected "D2314" "890" "5" "6"
           eq_refl eq_refl eq_refl eq_refl ltac:(discriminate)).
Defined.

End CheckDigitMore.

(** ** More on the score *)

Section ScoreMore.

Import MRZ Aux.
Local Open Scope Z_scope.

Lemma sum_bools_bounds (bs : list bool) :
  0 <= Py.sum_bools bs <= Z.of_nat (List.length bs)
  /\ (Py.sum_bools bs = Z.of_nat (List.length bs) <-> forallb (fun b => b) bs = true).
Proof.
  induction bs as [|b r [B I]]; cbn [Py.sum_bools List.length forallb].
  - split; [lia | tauto].
  - rewrite Nat2Z.inj_succ. destruct b; cbn [andb].
    + split; [lia|]. rewrite <- I. lia.
    + split; [lia|]. split; [lia | discriminate].
Qed.

(** With the total of a format, 10 per check digit, 1 per line, 1 for the
    leading character and 1 more, the score lies between 1 and 100 and is
    100 exactly when every check passed. *)
Lemma score_bounds (cd ll misc : list bool) (total : Z) :
  total = 10 * Z.of_nat (List.length cd) + Z.of_nat (List.length ll)
          + Z.of_nat (List.length misc) + 1 ->
  total <= 100 ->
  1 <= score cd ll misc total <= 100
  /\ (score cd ll misc total =? 100) = forallb (fun b => b) (cd ++ ll ++ misc).
Proof.
  intros T H. unfold score.
  destruct (sum_bools_bounds cd) as [B1 I1].
  destruct (sum_bools_bounds ll) as [B2 I2].
  destruct (sum_bools_bounds misc) as [B3 I3].
  set (n := 10 * Py.sum_bools cd + Py.sum_bools ll + Py.sum_bools misc + 1) in *.
  assert (1 <= n <= total) as Bn by lia.
  assert (1 <= 100 * n / total <= 100) as Bs.
  { split.
    - apply Z.div_le_lower_bound; lia.
    - apply Z.div_le_upper_bound; lia. }
  split; [exact Bs|].
  rewrite !forallb_app.
  destruct (Z.eqb_spec (100 * n / total) 100) as [E|E].
  - assert (n = total) as En.
    { destruct (Z.eq_dec n total) as [|Ne]; [assumption|]. exfalso.
      assert (100 * n / total < 100); [|lia].
      apply Z.div_lt_upper_bound; lia. }
    symmetry. rewrite !andb_true_iff. rewrite <- I1, <- I2, <- I3. lia.
  - symmetry. apply not_true_is_false. rewrite !andb_true_iff, <- I1, <- I2, <- I3.
    intros (E1 & E2 & E3). apply E.
    replace n with total by lia. apply Z.div_mul. lia.
Qed.

(** A parsed document has a score between 1 and 100, and [valid] is true
    exactly when every check digit, every line length and the leading
    character passed. *)
Theorem valid_iff_all_checks (m : mrz_input) (o : obj) (t : mrz_format) :
  new m = Ok o -> lookup o "mrz_type" = Ok (AType t) ->
  exists cd ll misc sc,
    lookup o "valid_check_digits" = Ok (ABools cd)
    /\ lookup o "valid_line_lengths" = Ok (ABools ll)
    /\ lookup o "valid_misc" = Ok (ABools misc)
    /\ lookup o "valid_score" = Ok (AInt sc)
    /\ 1 <= sc <= 100
    /\ lookup o "valid" = Ok (ABool (forallb (fun b => b) (cd ++ ll ++ misc))).
Proof.
  intros N T.
  destruct (new_cases m) as (t0 & cls & _ & _ & [(f & v & data & _ & D & E)|[_ E]]);
    rewrite E in N; inversion N; subst o; clear N E; [|discriminate T].
  destruct f; [destruct cls|..]; open_parser D; eval_attrs; inversion T; subst t;
    do 4 eexists; (do 4 (split; [reflexivity|]));
    match goal with
    | |- _ <= score ?cd ?ll ?misc ?total <= _ /\ _ =>
        destruct (score_bounds cd ll misc total eq_refl ltac:(cbn; lia)) as [B V];
        split; [exact B | now rewrite V]
    end.
Qed.

Lemma valid_iff_all_checks_witness :
  exists o sc,
    new (InList [LStr "V<UTOERIKSSON<<ANNA<MARIA"; LStr "L8988901C4XXX4009078F9612109"])
    = Ok o
    /\ lookup o "valid_score" = Ok (AInt sc) /\ 1 <= sc <= 100.
Proof.
  eexists.
  destruct (valid_iff_all_checks
              (InList [LStr "V<UTOERIKSSON<<ANNA<MARIA"; LStr "L8988901C4XXX4009078F9612109"])
              _ MRVB ltac:(vm_compute; reflexivity) ltac:(vm_compute; reflexivity))
    as (cd & ll & misc & sc & _ & _ & _ & S & B & _).
  exists sc. split; [reflexivity|]. split; assumption.
Defined.

End ScoreMore.

(** ** When a document parses *)

Section Parses.

Import MRZ Aux.

Lemma split_ll_shape (s : string) :
  (exists h, Py.split_ll s = [h]) \/ (exists h t, Py.split_ll s = [h; t]).
Proof.
  induction s as [|c s IH]; cbn [Py.split_ll]; [left; eauto|].
  destruct (Ascii.eqb c "<" && _); [right; eauto|].
  destruct IH as [[h E]|(h & t & E)]; rewrite E; [left | right]; eauto.
Qed.

Lemma split_names_total (s : string) : exists surname names, split_names s = Ok (surname, names).
Proof.
  unfold split_names.
  destruct (split_ll_shape s) as [[h E]|(h & t & E)]; rewrite E; cbn; eauto.
Qed.

Lemma date_ok_total (field check : string) :
  exists b, MRZBaseParser.date_ok field check = Ok b.
Proof.
  unfold MRZBaseParser.date_ok.
  destruct (String.eqb _ check); [apply check_date_total | eauto].
Qed.

Lemma index_pad (limit target : nat) (a : string) (i : nat) :
  (i < limit)%nat -> (limit <= target)%nat ->
  exists c, Py.index (pad limit target a) i = Ok (String c "").
Proof.
  intros I L. apply index_in_range. pose proof (pad_length limit target a L). lia.
Qed.

Ltac run_parser :=
  cbv zeta;
  repeat match goal with
         | |- context [bind (Py.index (pad ?n ?t ?a) ?i) _] =>
             let c := fresh "c" in
             let E := fresh "E" in
             destruct (index_pad n t a i ltac:(lia) ltac:(lia)) as [c E];
             rewrite E; cbn [bind]
         | |- context [bind (split_names ?s) _] =>
             let E := fresh "E" in
             destruct (split_names_total s) as (? & ? & E); rewrite E; cbn [bind]
         | |- context [bind (MRZBaseParser.date_ok ?f ?c) _] =>
             let E := fresh "E" in
             destruct (date_ok_total f c) as [? E]; rewrite E; cbn [bind]
         end;
  eauto.

(** On lines of text no parser raises: padding puts every position read
    in range, a name field always splits, and the date test only fails with
    the error it catches. *)
Lemma parsers_total (cls : parser_class) (m : mrz_input) :
  (forall a b c, elements m = Ok [LStr a; LStr b; LStr c] ->
                 exists v data, parse_td1 (cls, m) = Ok (v, data))
  /\ (forall a b, elements m = Ok [LStr a; LStr b] ->
                  (exists v data, parse_td2 (cls, m) = Ok (v, data))
                  /\ (exists v data, parse_td3 (cls, m) = Ok (v, data))
                  /\ (exists v data, parse_mrv (cls, m) 44 = Ok (v, data))
                  /\ (exists v data, parse_mrv (cls, m) 36 = Ok (v, data))).
Proof.
  split.
  - intros a b c E.
    destruct cls;
      cbv [parse_td1 fst snd MRZBaseParser.parse_td1 MRZParserEsp.parse_td1 unpack3];
      rewrite E; cbn [bind text]; run_parser.
  - intros a b E. repeat split;
      cbv [parse_td2 parse_td3 parse_mrv fst snd MRZBaseParser.parse_td2
           MRZBaseParser.parse_td3 MRZBaseParser.parse_mrv unpack2];
      rewrite E; cbn [bind text]; run_parser.
Qed.

Lemma guess_type_elements (m m' : mrz_input) :
  elements m = elements m' -> _guess_type m = _guess_type m'.
Proof.
  intro E.
  unfold _guess_type, MRZ_guess._guess_type, MRZ_guess.body, MRZ_guess.first_is_V, len, item.
  now rewrite E.
Qed.

Lemma dispatch_total (cls : parser_class) (m : mrz_input) (ls : list string) (t : mrz_format) :
  elements m = Ok (map LStr ls) -> _guess_type m = Ok (Some t) ->
  exists v data, dispatch t (cls, m) = Ok (v, data).
Proof.
  intros E G.
  rewrite (guess_type_elements m (InList (map LStr ls)) E) in G.
  pose proof (guess_type_lines_count ls t G) as C.
  destruct (parsers_total cls m) as [P3 P2].
  destruct t; cbn in C;
    try (destruct ls as [|a [|b [|c [|d r]]]]; try discriminate C;
         destruct (P2 a b E) as (Q2 & Q3 & QA & QB); assumption).
  destruct ls as [|a [|b [|c [|d r]]]]; try discriminate C. exact (P3 a b c E).
Qed.

Lemma text_lines_parse_general (m : mrz_input) (ls : list string) (t : mrz_format) :
  elements m = Ok (map LStr ls) -> _guess_type m = Ok (Some t) ->
  exists o, new m = Ok o /\ lookup o "mrz_type" = Ok (AType t).
Proof.
  intros El G.
  destruct (new_cases m) as (t0 & cls & Ht & _ & [(f & v & data & Hf & D & E)|[[Hn|(f & e & Hf & D)] E]]).
  - subst t0. rewrite G in Ht. inversion Ht; subst f. clear Ht.
    exists (parsed t v data). split; [exact E|].
    destruct t; [destruct cls|..]; open_parser D; eval_attrs; reflexivity.
  - subst t0. rewrite G in Ht. discriminate Ht.
  - subst t0. rewrite G in Ht. inversion Ht; subst f. clear Ht.
    destruct (dispatch_total cls m ls t El G) as (v & data & D'). rewrite D' in D. discriminate D.
Qed.

(** Lines of text whose type is guessed always parse: the instance keeps
    the guessed type. *)
Theorem text_lines_parse (m : mrz_input) (ls : list string) (t : mrz_format) :
  elements m = Ok (map LStr ls) -> _guess_type m = Ok (Some t) ->
  exists o, new m = Ok o /\ lookup o "mrz_type" = Ok (AType t).
Proof. exact (text_lines_parse_general m ls t). Qed.

Lemma text_lines_parse_witness :
  exists o, new (InStr "vb") = Ok o /\ lookup o "mrz_type" = Ok (AType MRVB).
Proof.
  exact (text_lines_parse (InStr "vb") ["v"; "b"] MRVB eq_refl ltac:(vm_compute; reflexivity)).
Defined.

(** An element that is not text never parses: whatever type is guessed,
    the instance is the collapsed one. *)
Theorem non_text_line_degrades (m : mrz_input) (ls : list line) (l : line) :
  elements m = Ok ls -> In l ls -> (forall s, l <> LStr s) ->
  new m = Ok degraded.
Proof.
  intros El I N.
  destruct (new_cases m) as (t0 & cls & _ & _ & [(f & v & data & _ & D & E)|[_ E]]);
    [exfalso | exact E].
  destruct f; [destruct cls|..]; open_parser D;
    repeat match goal with
           | H : text _ = Ok _ |- _ => apply text_ok in H; subst
           end;
    match goal with
    | H : unpack3 m = Ok _ |- _ => apply elements_unpack3 in H; rewrite H in El
    | H : unpack2 m = Ok _ |- _ => apply elements_unpack2 in H; rewrite H in El
    end;
    inversion El; subst ls; cbn [In] in I;
    repeat (destruct I as [I|I]; [eapply N; symmetry; exact I|]); exact I.
Qed.

Lemma non_text_line_degrades_witness :
  new (InList [LInt 1; LInt 2; LInt 3]) = Ok degraded.
Proof.
  exact (non_text_line_degrades (InList [LInt 1; LInt 2; LInt 3]) [LInt 1; LInt 2; LInt 3]
           (LInt 2) eq_refl ltac:(cbn; tauto) ltac:(discriminate)).
Defined.

End Parses.

(** ** The projection of an instance *)

Section Projection.

Import MRZ MRZ_dict Aux Derived.

Ltac name_values :=
  repeat match goal with
         | |- context [AStr ?e] => tryif is_var e then fail else (generalize e; intro)
         | |- context [ABool ?e] => tryif is_var e then fail else (generalize e; intro)
         | |- context [AInt ?e] => tryif is_var e then fail else (generalize e; intro)
         | |- context [@cons bool ?e _] => tryif is_var e then fail else (generalize e; intro)
         end.

Ltac give_projection :=
  match goal with
  | |- exists ty d, lookup ?o _ = _ /\ _ =>
      let r := eval vm_compute in (to_dict o) in
      let t := eval vm_compute in (lookup o "mrz_type") in
      match r with
      | (_, Ok ?d) => match t with Ok ?ty => exists ty, d end
      end
  end.

Ltac each_key I :=
  cbn [In map fst] in I;
  repeat (destruct I as [I|I]; [subst; try (vm_compute; reflexivity)|]); try contradiction.

(** [to_dict] returns on every constructed instance and leaves it as it
    is; its keys are, in order, those listed for the type; and under each
    key it holds the attribute of that name, the two swapped TD3 keys
    apart. *)
Theorem to_dict_projection (m : mrz_input) (o : obj) :
  new m = Ok o ->
  exists (ty : attr) (d : dict),
    lookup o "mrz_type" = Ok ty
    /\ to_dict o = (o, Ok d)
    /\ map fst d = projection_keys ty
    /\ (forall k, In k (map fst d) ->
                  (ty = AType TD3 -> k <> "valid_composite" /\ k <> "valid_personal_number") ->
                  lookup d k = lookup o k).
Proof.
  intro N.
  destruct (new_cases m) as (t0 & cls & _ & _ & [(f & v & data & _ & D & E)|[_ E]]);
    rewrite E in N; inversion N; subst o; clear N E.
  - destruct f; [destruct cls|..]; open_parser D; name_values; give_projection;
      (do 3 (split; [vm_compute; reflexivity|]));
      intros k I S; each_key I;
      destruct (S eq_refl) as [S1 S2]; congruence.
  - give_projection. do 3 (split; [vm_compute; reflexivity|]). intros k I _. each_key I.
Qed.

Lemma to_dict_projection_witness :
  exists o d,
    new (InList [LStr "I<UTOERIKSSON<<ANNA<MARIA<<<<<<<<<<<";
                 LStr "D231458907UTO7408122F1204159<<<<<<<6"]) = Ok o
    /\ to_dict o = (o, Ok d)
    /\ map fst d = projection_keys (AType TD2).
Proof.
  eexists.
  destruct (to_dict_projection
              (InList [LStr "I<UTOERIKSSON<<ANNA<MARIA<<<<<<<<<<<";
                       LStr "D231458907UTO7408122F1204159<<<<<<<6"]) _
              ltac:(vm_compute; reflexivity)) as (ty & d & T & P & K & _).
  exists d. split; [reflexivity|]. split; [exact P|].
  vm_compute in T. inversion T; subst ty. exact K.
Defined.

End Projection.

(** ** Fixed-width fields *)

Section Widths.

Import MRZ Aux Derived.

Ltac width_of_slice :=
  rewrite slice_length; [reflexivity | etransitivity; [|apply pad_length; lia]; lia].

Ltac width_of_index :=
  match goal with
  | H : Py.index _ _ = Ok ?x |- String.length ?x = _ =>
      destruct (index_char _ _ _ H) as [? ->]; reflexivity
  end.

Ltac width := eexists; split; [reflexivity | first [width_of_slice | width_of_index]].

(** Every field of a parsed document has the width of its columns, however
    short or long the lines were: 2 for the type, 3 for the country and the
    nationality, 9 for the number, 6 for each date, 1 for the sex and each
    check digit, and the optional fields as the format has them. *)
Theorem fields_have_fixed_width (m : mrz_input) (o : obj) (t : mrz_format) :
  new m = Ok o -> lookup o "mrz_type" = Ok (AType t) ->
  has_width o "type" 2 /\ has_width o "country" 3 /\ has_width o "number" 9
  /\ has_width o "check_number" 1 /\ has_width o "date_of_birth" 6
  /\ has_width o "check_date_of_birth" 1 /\ has_width o "sex" 1
  /\ has_width o "expiration_date" 6 /\ has_width o "check_expiration_date" 1
  /\ has_width o "nationality" 3
  /\ match t with
     | TD1 => has_width o "optional1" 15 /\ has_width o "optional2" 11
              /\ has_width o "check_composite" 1
     | TD2 => has_width o "optional1" 7 /\ has_width o "check_composite" 1
     | TD3 => has_width o "personal_number" 14 /\ has_width o "check_personal_number" 1
              /\ has_width o "check_composite" 1
     | MRVA => has_width o "optional1" 16
     | MRVB => has_width o "optional1" 8
     end.
Proof.
  intros N T.
  destruct (new_cases m) as (t0 & cls & _ & _ & [(f & v & data & _ & D & E)|[_ E]]);
    rewrite E in N; inversion N; subst o; clear N E; [|discriminate T].
  destruct f; [destruct cls|..]; open_parser D;
    cbv [parsed set_all bindM setattr ret fst snd store lookup
         String.eqb Ascii.eqb Bool.eqb] in T;
    inversion T; subst t; clear T; unfold has_width;
    cbv [parsed set_all bindM setattr ret fst snd store lookup
         String.eqb Ascii.eqb Bool.eqb];
    repeat (split; [width|]); try width.
Qed.

Lemma fields_have_fixed_width_witness :
  exists o,
    new (InList [LStr "V"; LStr ""]) = Ok o
    /\ has_width o "number" 9 /\ has_width o "optional1" 8.
Proof.
  eexists. split; [vm_compute; reflexivity|].
  destruct (fields_have_fixed_width (InList [LStr "V"; LStr ""]) _ MRVB
              ltac:(vm_compute; reflexivity) ltac:(vm_compute; reflexivity))
    as (_ & _ & Hn & _ & _ & _ & _ & _ & _ & _ & Ho).
  split; assumption.
Defined.

End Widths.

(** ** More on the cleaner *)

Section CleanerMore.

Import MRZOCRCleaner Aux.

Lemma alike_lines_lengths (ls : list string) :
  forall ls', alike_lines ls ls' = true -> map String.length ls' = map String.length ls.
Proof.
  induction ls as [|l r IH]; intros [|l' r'] H; try discriminate H; [reflexivity|].
  cbn [alike_lines] in H. apply andb_prop in H as [A H].
  cbn [map]. now rewrite (alike_text_length _ _ A), (IH _ H).
Qed.

Lemma alike_lines_refl (ls : list string) : alike_lines ls ls = true.
Proof.
  induction ls as [|l r IH]; cbn [alike_lines]; [reflexivity|].
  rewrite IH, andb_true_r. clear. induction l as [|c l IH]; cbn [alike_text]; [reflexivity|].
  now rewrite alike_refl, IH.
Qed.

(** The cleaner and its result, side by side: it never raises. *)
Lemma apply_cases (txt : string) :
  exists tp w,
    MRZ._guess_type (InList (map LStr (_split_lines txt))) = Ok tp
    /\ apply txt = Ok w
    /\ match tp with
       | Some t => fix_lines 0 (_split_lines txt) t = Ok w
       | None => w = Some (_split_lines txt)
       end.
Proof.
  unfold apply, __call__.
  set (kept := _split_lines txt).
  destruct (guess_type_total (InList (map LStr kept))) as [tp G].
  change MRZ._guess_type with MRZ_guess._guess_type. rewrite G. cbn [bind].
  destruct tp as [t|].
  - destruct (fix_lines_total t kept 0) as [w F].
    { rewrite (guess_type_lines_count kept t G). cbn. lia. }
    exists (Some t), w. auto.
  - exists None, (Some kept). auto.
Qed.

(** On characters with a single upper-case the cleaned lines are within
    the text, and alike the kept ones. *)
Lemma apply_alike (txt : string) (w : option (list string)) :
  all_chars single txt = true -> apply txt = Ok w ->
  exists lines, w = Some lines /\ alike_lines (_split_lines txt) lines = true.
Proof.
  intros Hs A. destruct (apply_cases txt) as (tp & w' & _ & A' & F).
  rewrite A' in A. inversion A; subst w'. clear A. destruct tp as [t|].
  - destruct (fix_lines_alike t _ 0 w (split_lines_all_chars single txt Hs) F)
      as (lines & E & L & _).
    exists lines. auto.
  - exists (_split_lines txt). split; [exact F | apply alike_lines_refl].
Qed.

(** On a text whose characters all have a single upper-case, the cleaner
    returns as many lines as the filter kept, of the same lengths; none
    holds a space or a newline, and each has 20 characters or more or holds
    a double filler. *)
Theorem cleaner_output (txt : string) :
  all_chars single txt = true ->
  exists lines,
    apply txt = Ok (Some lines)
    /\ map String.length lines = map String.length (_split_lines txt)
    /\ clean_lines lines.
Proof.
  intro Hs. destruct (apply_cases txt) as (tp & w & _ & A & _).
  destruct (apply_alike txt w Hs A) as (lines & -> & L).
  exists lines. split; [exact A|]. split; [now apply alike_lines_lengths|].
  exact (alike_lines_clean _ _ L (split_lines_clean txt)).
Qed.

Lemma cleaner_output_witness :
  exists lines,
    apply ("junk" ++ String Py.newline ("vIUSATRAVELER<<HAPPY PERSON" ++ String Py.newline
                                          "5S5123ABC6GBR6502056F0412236"))
    = Ok (Some lines)
    /\ map String.length lines = [26; 28]%nat.
Proof.
  destruct (cleaner_output
              ("junk" ++ String Py.newline ("vIUSATRAVELER<<HAPPY PERSON" ++ String Py.newline
                                              "5S5123ABC6GBR6502056F0412236"))
              eq_refl) as (lines & A & L & _).
  exists lines. split; [exact A | exact L].
Defined.

(** On such a text the guessed type survives the corrections: the cleaned
    lines are guessed as the kept lines were. *)
Theorem cleaning_keeps_type (txt : string) (lines : list string) :
  all_chars single txt = true -> apply txt = Ok (Some lines) ->
  MRZ._guess_type (InList (map LStr lines))
  = MRZ._guess_type (InList (map LStr (_split_lines txt))).
Proof.
  intros Hs A. destruct (apply_alike txt _ Hs A) as (lines' & E & L).
  inversion E; subst lines'. now apply guess_type_alike.
Qed.

Lemma cleaning_keeps_type_witness :
  MRZ._guess_type (InList (map LStr ["VIUSATRAVELER<<HAPPYPERSON"; "5S5123ABC6GBR6502056F0412236"]))
  = MRZ._guess_type
      (InList (map LStr (_split_lines
                           ("vIUSATRAVELER<<HAPPY PERSON" ++ String Py.newline
                              "5S5123ABC6GBR6502056F0412236")))).
Proof.
  exact (cleaning_keeps_type
           ("vIUSATRAVELER<<HAPPY PERSON" ++ String Py.newline "5S5123ABC6GBR6502056F0412236")
           ["VIUSATRAVELER<<HAPPYPERSON"; "5S5123ABC6GBR6502056F0412236"]
           eq_refl ltac:(vm_compute; reflexivity)).
Defined.

(** The cleaner never raises, and whenever the cleaned lines are within
    the text, [from_ocr] returns an instance that has the type guessed from
    them: cleaned lines always parse. *)
Theorem from_ocr_returns (txt : string) :
  exists w,
    apply txt = Ok w
    /\ forall lines,
        w = Some lines ->
        exists tp o,
          MRZ._guess_type (InList (map LStr lines)) = Ok tp
          /\ from_ocr txt = Some (Ok o)
          /\ lookup o "mrz_type" = Ok (MRZ.attr_of_type tp).
Proof.
  destruct (apply_cases txt) as (tp0 & w & _ & A & _).
  exists w. split; [exact A|]. intros lines ->.
  destruct (guess_type_total (InList (map LStr lines))) as [tp G].
  exists tp. unfold from_ocr. rewrite A.
  destruct tp as [t|].
  - destruct (text_lines_parse_general (InList (map LStr lines)) lines t eq_refl G)
      as (o & N & T).
    exists o. rewrite N. auto.
  - destruct (new_cases (InList (map LStr lines)))
      as (t0 & cls & Ht & _ & [(f & v & data & Hf & _)|[_ E]]).
    + subst t0. change MRZ._guess_type with MRZ_guess._guess_type in Ht.
      rewrite G in Ht. discriminate Ht.
    + exists degraded. rewrite E. auto.
Qed.

Lemma from_ocr_returns_witness :
  exists o,
    from_ocr ("I<UTOERIKSSON<<ANNA<MARIA<<<<<<<<<<<" ++ String Py.newline
                "D231458907UTO7408122F1204159<<<<<<<6")
    = Some (Ok o)
    /\ lookup o "mrz_type" = Ok (AType TD2).
Proof.
  destruct (from_ocr_returns
              ("I<UTOERIKSSON<<ANNA<MARIA<<<<<<<<<<<" ++ String Py.newline
                 "D231458907UTO7408122F1204159<<<<<<<6")) as (w & A & H).
  vm_compute in A. inversion A; subst w. clear A.
  destruct (H _ eq_refl) as (tp & o & G & F & T).
  exists o. split; [exact F|].
  vm_compute in G. inversion G; subst tp. exact T.
Defined.

End CleanerMore.

Section Settled.

Import MRZOCRCleaner Aux Derived.

Lemma settled_a (c : ascii) :
  match fix_with a_fixer c with
  | Some (String c' "") =>
      Py.wide_eqb (Py.upper_char c') (String c' "")
      && negb (existsb (fun kv => Ascii.eqb (fst kv) c') a_fixer)
  | _ => true
  end = true.
Proof. destruct c as [[] [] [] [] [] [] [] []]; reflexivity. Qed.

Lemma settled_n (c : ascii) :
  match fix_with n_fixer c with
  | Some (String c' "") =>
      Py.wide_eqb (Py.upper_char c') (String c' "")
      && negb (existsb (fun kv => Ascii.eqb (fst kv) c') n_fixer)
  | _ => true
  end = true.
Proof. destruct c as [[] [] [] [] [] [] [] []]; reflexivity. Qed.

Lemma settled_none (c : ascii) :
  match fix_with [] c with
  | Some (String c' "") => Py.wide_eqb (Py.upper_char c') (String c' "") && negb false
  | _ => true
  end = true.
Proof. destruct c as [[] [] [] [] [] [] [] []]; reflexivity. Qed.

Lemma settled_fix (cls : ascii) (f : fixer) (c c' : ascii) :
  fixer_of FIXERS cls = Ok f -> fix_with f c = Some (String c' "") ->
  settled cls c' = true.
Proof.
  intros F E. unfold settled. rewrite F.
  destruct (fixer_cases cls f F) as [->|[->| ->]];
    [pose proof (settled_a c) as K | pose proof (settled_n c) as K
     | pose proof (settled_none c) as K];
    rewrite E in K; exact K.
Qed.

Lemma get_some_lt (s : string) :
  forall j c, String.get j s = Some c -> (j < String.length s)%nat.
Proof.
  induction s as [|x s IH]; intros j c G; [discriminate G|].
  destruct j as [|j]; cbn in *; [lia|]. specialize (IH j c G). lia.
Qed.

Lemma fix_from_get (t : mrz_format) (i : nat) (ln : string) :
  forall j0 ln' j c',
    all_chars single ln = true ->
    fix_from j0 ln t i = Ok (Some ln') -> String.get j ln' = Some c' ->
    exists c, String.get j ln = Some c /\ _fix_char c t i (j0 + j) = Ok (Some (String c' "")).
Proof.
  induction ln as [|x r IH]; intros j0 ln' j c'; cbn [fix_from all_chars].
  - intros _ H G. inversion H; subst. discriminate G.
  - intro Hs. apply andb_prop in Hs as [Sx Sr].
    destruct (_fix_char x t i j0) as [wx|e] eqn:X; cbn [bind]; [|discriminate].
    destruct (fix_from (S j0) r t i) as [wr|e] eqn:R; cbn [bind]; [|discriminate].
    destruct (fix_char_alike _ _ _ _ _ Sx X) as (x' & -> & _ & _).
    destruct (fix_from_alike _ _ _ _ _ Sr R) as (r' & -> & _ & _).
    cbn [Py.wide_append append]. intros H G. inversion H; subst ln'. clear H.
    destruct j as [|j]; cbn [String.get] in G |- *.
    + inversion G; subst. exists x. now rewrite Nat.add_0_r.
    + destruct (IH _ _ _ _ Sr R G) as (c & Gc & Fc). exists c.
      replace (j0 + S j)%nat with (S j0 + j)%nat by lia. auto.
Qed.

Lemma fix_lines_nth (t : mrz_format) (lines : list string) :
  forall i0 lines' i l',
    Forall (fun l => all_chars single l = true) lines ->
    fix_lines i0 lines t = Ok (Some lines') -> nth_error lines' i = Some l' ->
    exists l,
      nth_error lines i = Some l /\ all_chars single l = true
      /\ fix_from 0 l t (i0 + i) = Ok (Some l').
Proof.
  induction lines as [|x r IH]; intros i0 lines' i l' Hs; cbn [fix_lines].
  - intros H G. inversion H; subst. destruct i; discriminate G.
  - inversion Hs as [|? ? Sx Sr]; subst. unfold _fix_line.
    destruct (fix_from 0 x t i0) as [wx|e] eqn:X; cbn [bind]; [|discriminate].
    destruct (fix_lines (S i0) r t) as [wr|e] eqn:R; cbn [bind]; [|discriminate].
    destruct (fix_from_alike _ _ _ _ _ Sx X) as (x' & -> & _ & _).
    destruct (fix_lines_alike _ _ _ _ Sr R) as (r' & -> & _ & _).
    cbn [wide_cons]. intros H G. inversion H; subst lines'. clear H.
    destruct i as [|i]; cbn [nth_error] in G |- *.
    + inversion G; subst. exists x. now rewrite Nat.add_0_r.
    + destruct (IH _ _ _ _ Sr R G) as (l & Gl & Sl & Fl). exists l.
      replace (i0 + S i)%nat with (S i0 + i)%nat by lia. auto.
Qed.

(** On a text whose characters all have a single upper-case: when the
    cleaned lines have a type, every character within the format of its
    line is settled: it is its own upper-case, and the correction table of
    its position has no entry for it. *)
Theorem cleaned_characters_settled
    (txt : string) (lines : list string) (t : mrz_format)
    (i j : nat) (l fmt : string) (c cls : ascii) :
  all_chars single txt = true ->
  apply txt = Ok (Some lines) ->
  MRZ._guess_type (InList (map LStr lines)) = Ok (Some t) ->
  nth_error lines i = Some l -> nth_error (FORMAT t) i = Some fmt ->
  String.get j l = Some c -> String.get j fmt = Some cls ->
  settled cls c = true.
Proof.
  intros Hs A G Nl Nf Gc Gf.
  pose proof (split_lines_all_chars single txt Hs) as Hk.
  destruct (apply_alike txt _ Hs A) as (lines' & E & L). inversion E; subst lines'. clear E.
  destruct (apply_cases txt) as (tp & w & G0 & A' & F).
  rewrite A' in A. inversion A; subst w. clear A.
  rewrite (guess_type_alike _ _ L) in G. rewrite G in G0. inversion G0; subst tp. clear G0.
  destruct (fix_lines_nth _ _ _ _ _ _ Hk F Nl) as (l0 & _ & Sl & Fl).
  destruct (fix_from_get _ _ _ _ _ _ _ Sl Fl Gc) as (c0 & _ & Fc).
  cbn [Nat.add] in Fc. unfold _fix_char in Fc. rewrite Nf in Fc.
  pose proof (get_some_lt _ _ _ Gf) as Lt.
  destruct (Nat.leb_spec (String.length fmt) j) as [Le|_]; [lia|].
  rewrite Gf in Fc.
  destruct (fixer_of FIXERS cls) as [f|e] eqn:Fx; cbn [bind] in Fc; [|discriminate Fc].
  inversion Fc as [Fc']. exact (settled_fix cls f c0 c Fx Fc').
Qed.

Lemma cleaned_characters_settled_witness : settled "n" "1" = true.
Proof.
  exact (cleaned_characters_settled
           ("P<POLKOWALSKA<<JOANNA" ++ String Py.newline "AA0000000OPOL6OOzoB4Fi4iz3I4")
           ["P<POLKOWALSKA<<JOANNA"; "AA00000000POL6002084F1412314"] TD2
           1 21 "AA00000000POL6002084F1412314"
           (Py.repeat "*" 9 ++ "n" ++ Py.repeat "A" 3 ++ Py.repeat "n" 7 ++ "A" ++ Py.repeat "n" 7
              ++ Py.repeat "*" 7 ++ Py.repeat "n" 1)
           "1" "n"
           eq_refl ltac:(vm_compute; reflexivity) ltac:(vm_compute; reflexivity)
           eq_refl eq_refl eq_refl eq_refl).
Defined.

End Settled.

(** ** Names *)

Section Names.

Import MRZ Aux.

Lemma starts_with_filler_char (c : ascii) (r : string) :
  match String c r with String "<" _ => true | _ => false end = Ascii.eqb c "<".
Proof. exact (starts_with_filler (String c r)). Qed.

Lemma head_is_filler (h t : string) :
  match (h ++ String "<" t)%string with String x _ => Ascii.eqb x "<" | "" => false end
  = match (h ++ "<")%string with String x _ => Ascii.eqb x "<" | "" => false end.
Proof. destruct h; reflexivity. Qed.

(** A text that holds a double filler is cut before the leftmost one. *)
Lemma split_ll_cut (s : string) :
  (Py.contains_ll s = false /\ Py.split_ll s = [s])
  \/ (exists h t, Py.split_ll s = [h; t] /\ Py.contains_ll (h ++ "<") = false
                  /\ s = h ++ "<<" ++ t /\ Py.contains_ll s = true).
Proof.
  induction s as [|c r IH]; [now left|].
  cbn [Py.split_ll Py.contains_ll].
  destruct (Ascii.eqb c "<" && match r with String "<" _ => true | _ => false end) eqn:C.
  - right. apply andb_prop in C as [C1 C2]. apply Ascii.eqb_eq in C1. subst c.
    destruct r as [|x r']; [discriminate C2|].
    rewrite (starts_with_filler_char x r') in C2. apply Ascii.eqb_eq in C2. subst x.
    exists "", r'. repeat split.
  - cbn [orb]. destruct IH as [[N E]|(h & t & E & Nh & R & Y)]; rewrite E.
    + left. split; [exact N | reflexivity].
    + right. exists (String c h), t. split; [reflexivity|]. split; [|split].
      * cbn [append Py.contains_ll]. rewrite Nh, orb_false_r.
        rewrite R, starts_with_filler in C. cbn [append] in C.
        rewrite head_is_filler in C. now rewrite starts_with_filler.
      * now rewrite R.
      * exact Y.
Qed.

(** Any cut before a double filler that has no double filler to its left,
    nor one that overlaps it, is the cut of [split]. *)
Lemma split_ll_leftmost (h t : string) :
  Py.contains_ll (h ++ "<") = false -> Py.split_ll (h ++ "<<" ++ t) = [h; t].
Proof.
  induction h as [|c h IH]; [reflexivity|].
  cbn [append Py.contains_ll Py.split_ll]. intro N.
  apply orb_false_iff in N as [N1 N2].
  rewrite starts_with_filler in N1 |- *. rewrite head_is_filler, N1.
  change (String "<" (String "<" t)) with ("<<" ++ t). now rewrite (IH N2).
Qed.

(** The name field is cut at its leftmost double filler.  Without one the
    whole field is the surname and the given names are empty.  With one,
    the surname is what stands before the leftmost [<<] and the given names
    what stands after it: every way of writing the field as surname, [<<],
    names in which [<<] does not begin before the end of the surname is the
    result, and there is such a way. *)
Theorem split_names_cut (field : string) :
  (Py.contains_ll field = false -> split_names field = Ok (field, ""))
  /\ (forall surname names,
         field = surname ++ "<<" ++ names -> Py.contains_ll (surname ++ "<") = false ->
         split_names field = Ok (surname, names))
  /\ (Py.contains_ll field = true ->
      exists surname names,
        field = surname ++ "<<" ++ names /\ Py.contains_ll (surname ++ "<") = false).
Proof.
  split; [|split].
  - intro N. unfold split_names.
    destruct (split_ll_cut field) as [[_ E]|(h & t & _ & _ & _ & Y)];
      [now rewrite E | rewrite Y in N; discriminate N].
  - intros surname names -> N. unfold split_names.
    now rewrite (split_ll_leftmost surname names N).
  - intro Y. destruct (split_ll_cut field) as [[N _]|(h & t & _ & Nh & R & _)];
      [rewrite Y in N; discriminate N | eauto].
Qed.

Lemma split_names_cut_witness : split_names "A<<<B<<C" = Ok ("A", "<B<<C").
Proof.
  exact (proj1 (proj2 (split_names_cut "A<<<B<<C")) "A" "<B<<C" eq_refl eq_refl).
Defined.

Lemma fillers_to_spaces_lacks (s : string) : lacks "<" (Py.fillers_to_spaces s) = true.
Proof.
  unfold lacks. induction s as [|c s IH]; cbn [Py.fillers_to_spaces all_chars]; [reflexivity|].
  rewrite IH, andb_true_r. destruct (Ascii.eqb c "<") eqn:E; [reflexivity | now rewrite E].
Qed.

Lemma lstrip_lacks (x : ascii) (s : string) : lacks x s = true -> lacks x (Py.lstrip s) = true.
Proof.
  unfold lacks. induction s as [|c s IH]; cbn [Py.lstrip all_chars]; [reflexivity|].
  intro H. destruct (Py.is_space c); [|exact H].
  apply andb_prop in H as [_ H]. now apply IH.
Qed.

Lemma rstrip_lacks (x : ascii) (s : string) : lacks x s = true -> lacks x (Py.rstrip s) = true.
Proof.
  unfold lacks. induction s as [|c s IH]; cbn [Py.rstrip all_chars]; [reflexivity|].
  intro H. apply andb_prop in H as [Hc Hs]. specialize (IH Hs).
  destruct (Py.rstrip s) as [|y r'].
  - destruct (Py.is_space c); [reflexivity|]. cbn [all_chars]. now rewrite Hc.
  - cbn [all_chars] in *. now rewrite Hc, IH.
Qed.

Lemma rstrip_idempotent (s : string) : Py.rstrip (Py.rstrip s) = Py.rstrip s.
Proof.
  induction s as [|c s IH]; [reflexivity|]. cbn [Py.rstrip].
  destruct (Py.rstrip s) as [|y r'] eqn:R.
  - destruct (Py.is_space c) eqn:S; [reflexivity|]. cbn [Py.rstrip]. now rewrite S.
  - cbn [Py.rstrip]. cbn [Py.rstrip] in IH. now rewrite IH.
Qed.

Lemma rstrip_keeps_head (c : ascii) (r : string) :
  Py.is_space c = false -> Py.rstrip (String c r) = String c (Py.rstrip r).
Proof. intro S. cbn [Py.rstrip]. destruct (Py.rstrip r); [now rewrite S | reflexivity]. Qed.

Lemma lstrip_head (s : string) :
  Py.lstrip s = "" \/ exists c r, Py.lstrip s = String c r /\ Py.is_space c = false.
Proof.
  induction s as [|c s IH]; [now left|]. cbn [Py.lstrip].
  destruct (Py.is_space c) eqn:S; [exact IH | right; eauto].
Qed.

(** Stripping what was stripped changes nothing. *)
Lemma strip_idempotent (s : string) : Py.strip (Py.strip s) = Py.strip s.
Proof.
  unfold Py.strip. destruct (lstrip_head s) as [E|(c & r & E & S)]; rewrite E; [reflexivity|].
  rewrite (rstrip_keeps_head c r S). cbn [Py.lstrip]. rewrite S.
  rewrite (rstrip_keeps_head c _ S). now rewrite rstrip_idempotent.
Qed.

Lemma clean_name_tidy (x : string) :
  lacks "<" (clean_name x) = true /\ Py.strip (clean_name x) = clean_name x.
Proof.
  unfold clean_name. split; [|apply strip_idempotent].
  unfold Py.strip. apply rstrip_lacks, lstrip_lacks, fillers_to_spaces_lacks.
Qed.

(** The surname and the given names of a parsed document hold no filler
    and neither begin nor end with white space. *)
Theorem names_are_tidy (m : mrz_input) (o : obj) (t : mrz_format) :
  new m = Ok o -> lookup o "mrz_type" = Ok (AType t) ->
  exists surname names,
    lookup o "surname" = Ok (AStr surname) /\ lookup o "names" = Ok (AStr names)
    /\ lacks "<" surname = true /\ Py.strip surname = surname
    /\ lacks "<" names = true /\ Py.strip names = names.
Proof.
  intros N T.
  destruct (new_cases m) as (t0 & cls & _ & _ & [(f & v & data & _ & D & E)|[_ E]]);
    rewrite E in N; inversion N; subst o; clear N E; [|discriminate T].
  destruct f; [destruct cls|..]; open_parser D; clear T;
    do 2 eexists; (do 2 (split; [reflexivity|]));
    match goal with
    | |- lacks _ (clean_name ?s) = _ /\ _ /\ lacks _ (clean_name ?n) = _ /\ _ =>
        destruct (clean_name_tidy s) as [? ?]; destruct (clean_name_tidy n) as [? ?]; auto
    end.
Qed.

Lemma names_are_tidy_witness :
  exists o,
    new (InList [LStr "P<POL<KOWALSKA<KWIATKOWSKA<<<JOANNA<ANNA<<<<";
                 LStr "AA00000000POL6002084F1412314<<<<<<<<<<<<<<<4"]) = Ok o
    /\ lookup o "surname" = Ok (AStr "KOWALSKA KWIATKOWSKA")
    /\ lookup o "names" = Ok (AStr "JOANNA ANNA").
Proof.
  eexists.
  destruct (names_are_tidy
              (InList [LStr "P<POL<KOWALSKA<KWIATKOWSKA<<<JOANNA<ANNA<<<<";
                       LStr "AA00000000POL6002084F1412314<<<<<<<<<<<<<<<4"]) _ TD3
              ltac:(vm_compute; reflexivity) ltac:(vm_compute; reflexivity))
    as (sn & nm & Hs & Hn & _).
  split; [reflexivity|]. split; vm_compute; reflexivity.
Defined.

End Names.

(** ** Short lines *)

Section ShortLines.

Import MRZ Aux.

Lemma substring_append (n m : nat) (s t : string) :
  (n + m <= String.length s)%nat -> substring n m (s ++ t) = substring n m s.
Proof.
  revert n m. induction s as [|c s IH]; intros n m H; cbn [String.length] in H.
  - assert (n = 0 /\ m = 0)%nat as [-> ->] by lia. destruct t; reflexivity.
  - destruct n as [|n], m as [|m]; cbn [append substring]; try reflexivity.
    + f_equal. apply IH. lia.
    + apply IH. lia.
    + apply IH. lia.
Qed.

Lemma get_append (i : nat) (s t : string) :
  (i < String.length s)%nat -> String.get i (s ++ t) = String.get i s.
Proof.
  revert i. induction s as [|c s IH]; intros i H; cbn [String.length] in H; [lia|].
  destruct i as [|i]; cbn [append String.get]; [reflexivity | apply IH; lia].
Qed.

Lemma repeat_add (c : ascii) (n k : nat) :
  Py.repeat c (n + k) = Py.repeat c n ++ Py.repeat c k.
Proof. induction n as [|n IH]; cbn; [reflexivity | now rewrite IH]. Qed.

Lemma append_assoc (s t u : string) : (s ++ t) ++ u = s ++ (t ++ u).
Proof. induction s as [|c s IH]; cbn; [reflexivity | now rewrite IH]. Qed.

(** Padding a short visa line to 44 is padding it to 36 and adding 8
    fillers. *)
Lemma pad_36_44 (a : string) : exists rest, pad 36 44 a = pad 36 36 a ++ rest.
Proof.
  unfold pad. destruct (Nat.ltb_spec (String.length a) 36) as [L|L].
  - exists (Py.repeat "<" 8).
    replace (44 - String.length a)%nat with ((36 - String.length a) + 8)%nat by lia.
    now rewrite repeat_add, append_assoc.
  - exists "". clear. induction a as [|c a IH]; cbn; [reflexivity | now rewrite <- IH].
Qed.

Lemma slice_36_44 (i j : nat) (a : string) :
  (i <= j <= 36)%nat -> Py.slice i j (pad 36 44 a) = Py.slice i j (pad 36 36 a).
Proof.
  intro H. destruct (pad_36_44 a) as [rest E]. rewrite E. unfold Py.slice.
  apply substring_append. pose proof (pad_length 36 36 a ltac:(lia)). lia.
Qed.

Lemma index_36_44 (i : nat) (a : string) :
  (i < 36)%nat -> Py.index (pad 36 44 a) i = Py.index (pad 36 36 a) i.
Proof.
  intro H. destruct (pad_36_44 a) as [rest E]. rewrite E. unfold Py.index.
  rewrite get_append; [reflexivity|]. pose proof (pad_length 36 36 a ltac:(lia)). lia.
Qed.

Lemma pad_padded (limit target : nat) (a : string) :
  pad limit target (pad limit limit a) = pad limit limit a.
Proof. apply pad_long. apply pad_length. lia. Qed.

Ltac rerun :=
  repeat match goal with
         | H : ?c = Ok _ |- context [bind ?c _] => rewrite H; cbn [bind]
         end.

Ltac same_entries :=
  let k := fresh "k" in
  intros k ? ?;
  repeat first [ apply lookup_same | apply lookup_same_but; [assumption|] ];
  reflexivity.

(** A short line is read as if it had been filled with fillers to the
    length of its format: the parser returns on the filled lines whenever it
    returns on the short ones, with the same dictionary but for
    [valid_line_lengths] and [valid_score].  This holds for the short visa
    format as well, whose lines are filled to 44 and read up to 36. *)
Theorem short_lines_read_as_filled
    (t : mrz_format) (cls : parser_class) (ls : list string) (v : bool) (data : dict) :
  dispatch t (cls, InList (map LStr ls)) = Ok (v, data) ->
  let n := Spec.required_length t in
  exists v' data',
    dispatch t (cls, InList (map (fun l => LStr (pad n n l)) ls)) = Ok (v', data')
    /\ (forall k, k <> "valid_line_lengths" -> k <> "valid_score" ->
                  lookup data k = lookup data' k).
Proof.
  intros D n. subst n.
  destruct t; [destruct cls|..];
    cbv [dispatch parse_td1 parse_td2 parse_td3 parse_mrv fst snd
         MRZBaseParser.parse_td1 MRZParserEsp.parse_td1 MRZBaseParser.parse_td2
         MRZBaseParser.parse_td3 MRZBaseParser.parse_mrv] in D |- *;
    cbv [unpack3 unpack2 elements] in D |- *; cbn [bind] in D |- *;
    destruct ls as [|a [|b [|c [|d r]]]]; try discriminate D;
    cbn [map text bind Spec.required_length] in D |- *;
    backwards D; inversion D; subst; clear D; cbv zeta;
    rewrite ?pad_padded;
    rewrite ?index_36_44 in * by lia;
    rewrite ?slice_36_44 in * by lia;
    rerun; do 2 eexists; (split; [reflexivity|]); same_entries.
Qed.

Lemma short_lines_read_as_filled_witness :
  exists v data v' data',
    dispatch MRVB (BaseParser, InList (map LStr ["V<UTOERIKSSON<<ANNA"; "L8988901C4XXX4009078F9612109"]))
    = Ok (v, data)
    /\ dispatch MRVB
         (BaseParser,
          InList (map (fun l => LStr (pad 36 36 l))
                      ["V<UTOERIKSSON<<ANNA"; "L8988901C4XXX4009078F9612109"]))
       = Ok (v', data')
    /\ lookup data "optional1" = lookup data' "optional1".
Proof.
  do 2 eexists.
  destruct (short_lines_read_as_filled MRVB BaseParser
              ["V<UTOERIKSSON<<ANNA"; "L8988901C4XXX4009078F9612109"] _ _
              ltac:(vm_compute; reflexivity)) as (v' & data' & D' & S).
  exists v', data'. split; [reflexivity|]. split; [exact D'|].
  apply S; discriminate.
Defined.

End ShortLines.

(** ** More on dates and on the guesser *)

Section DatesMore.

Import Aux.

(** On six characters without a space, [_check_date] is the calendar test:
    it never raises, and answers true exactly for a date written YYMMDD. *)
Theorem check_date_six (ymd : string) :
  String.length ymd = 6%nat -> lacks " " ymd = true ->
  MRZBaseParser._check_date ymd = Ok (Spec.calendar_date ymd).
Proof.
  intros L S.
  destruct (six_characters ymd L) as (y1 & y2 & m1 & m2 & d1 & d2 & E). subst ymd.
  apply check_date_calendar. intro K. subst d1.
  unfold lacks in S. cbn [all_chars] in S.
  repeat (apply andb_prop in S as [? S]). discriminate.
Qed.

Lemma check_date_six_witness :
  MRZBaseParser._check_date "000229" = Ok (Spec.calendar_date "000229").
Proof. exact (check_date_six "000229" eq_refl eq_refl). Defined.

Lemma guess_type_long_first_witness :
  MRZ_guess._guess_type (InList [LStr (Py.repeat "*" 40); LInt 5]) = Ok (Some TD3).
Proof.
  exact (guess_type_long_first (InList [LStr (Py.repeat "*" 40); LInt 5]) "*"
           (Py.repeat "*" 39) (LInt 5) eq_refl ltac:(cbn; lia)).
Defined.


End DatesMore.

Section Method.

Import MRZ MRZ_dict Aux Derived.

Ltac eval_method :=
  cbv [to_dict put put_digit getattr bindM ret lift is_type is_visa has_key negb orb
       nth_error fst snd store lookup String.eqb Ascii.eqb Bool.eqb app].

(** When the caller has put a [method] into [aux], [to_dict] ends with it
    on a document that has a type, and ignores it on one that has none;
    nothing else changes. *)
Theorem to_dict_method (m : mrz_input) (o : obj) (aux : dict) (v : attr) :
  new m = Ok o -> lookup aux "method" = Ok v ->
  let o' := store o "aux" (ADict aux) in
  exists ty d d',
    lookup o "mrz_type" = Ok ty
    /\ to_dict o = (o, Ok d) /\ to_dict o' = (o', Ok d')
    /\ d' = match ty with
            | ANone => d
            | _ => (d ++ [("method", v)])%list
            end.
Proof.
  intros N A o'. subst o'.
  destruct (new_cases m) as (t0 & cls & _ & _ & [(f & w & data & _ & D & E)|[_ E]]);
    rewrite E in N; inversion N; subst o; clear N E.
  - destruct f; [destruct cls|..]; open_parser D; eval_attrs; eval_method;
      cbv [lookup String.eqb Ascii.eqb Bool.eqb] in A; rewrite A;
      do 3 eexists; repeat split.
  - exists ANone. do 2 eexists. repeat split.
Qed.

Lemma to_dict_method_witness :
  exists o d',
    new (InList [LStr "I<UTOERIKSSON<<ANNA<MARIA<<<<<<<<<<<";
                 LStr "D231458907UTO7408122F1204159<<<<<<<6"]) = Ok o
    /\ to_dict (store o "aux" (ADict [("method", AStr "direct")]))
       = (store o "aux" (ADict [("method", AStr "direct")]), Ok d')
    /\ lookup d' "method" = Ok (AStr "direct").
Proof.
  eexists.
  destruct (to_dict_method
              (InList [LStr "I<UTOERIKSSON<<ANNA<MARIA<<<<<<<<<<<";
                       LStr "D231458907UTO7408122F1204159<<<<<<<6"]) _
              [("method", AStr "direct")] (AStr "direct")
              ltac:(vm_compute; reflexivity) eq_refl) as (ty & d & d' & T & P & P' & E).
  exists d'. split; [reflexivity|]. split; [exact P'|].
  vm_compute in P'. inversion P'. reflexivity.
Defined.

End Method.

